(** * update_agents_with_serena.py: the section locator and splicer

    A shallow embedding of [update_agents_with_serena.py].  Python [str]
    values are Rocq strings; a character is a code point below 256, and the
    whitespace and lower-casing tables are Python's, restricted to that
    range.  A document is handled by the script as [content.split('\n')],
    a list of lines, and written back as ['\n'.join(new_lines)].  The file
    system is a finite map from paths to file contents. *)

From Stdlib Require Import Ascii.
From stdpp Require Import gmap strings list fin_maps.

(** ** Python string primitives *)

Module Py.

Definition newline : ascii := "010"%char.

(** [str.isspace] on one character. *)
Definition is_space (c : ascii) : bool :=
  let n := nat_of_ascii c in
  ((9 <=? n) && (n <=? 13)) || ((28 <=? n) && (n <=? 32))
  || (n =? 133) || (n =? 160).

(** [str.lower] on one character. *)
Definition lower_char (c : ascii) : ascii :=
  let n := nat_of_ascii c in
  if ((65 <=? n) && (n <=? 90))
     || ((192 <=? n) && (n <=? 222) && negb (n =? 215))
  then ascii_of_nat (n + 32) else c.

Fixpoint lower (s : string) : string :=
  match s with
  | "" => ""
  | String c s' => String (lower_char c) (lower s')
  end.

Fixpoint lstrip (s : string) : string :=
  match s with
  | "" => ""
  | String c s' => if is_space c then lstrip s' else s
  end.

Fixpoint rstrip (s : string) : string :=
  match s with
  | "" => ""
  | String c s' =>
      match rstrip s' with
      | "" => if is_space c then "" else String c ""
      | r => String c r
      end
  end.

(** [s.strip()] *)
Definition strip (s : string) : string := rstrip (lstrip s).

(** [s.startswith(p)] *)
Fixpoint startswith (p s : string) : bool :=
  match p, s with
  | "", _ => true
  | String a p', String b s' => Ascii.eqb a b && startswith p' s'
  | String _ _, "" => false
  end.

(** [needle in hay] *)
Fixpoint contains (needle hay : string) : bool :=
  startswith needle hay ||
  match hay with
  | "" => false
  | String _ hay' => contains needle hay'
  end.

(** [s.split('\n')] *)
Fixpoint split (s : string) : list string :=
  match s with
  | "" => [""]
  | String c s' =>
      if Ascii.eqb c newline then "" :: split s'
      else match split s' with
           | l :: ls => String c l :: ls
           | [] => [String c ""]
           end
  end.

(** ['\n'.join(ls)] *)
Fixpoint join (ls : list string) : string :=
  match ls with
  | [] => ""
  | [l] => l
  | l :: ls' => l +:+ String newline (join ls')
  end.

(** No newline character inside [s]. *)
Fixpoint no_newline (s : string) : bool :=
  match s with
  | "" => true
  | String c s' => negb (Ascii.eqb c newline) && no_newline s'
  end.

(** [w] occurs in [s] as a contiguous substring. *)
Definition substr (w s : string) : Prop :=
  ∃ pre post, s = pre +:+ w +:+ post.

End Py.

(** ** The script *)

Definition HEADING : string := "## Serena MCP Integration".

(** [line.strip() == ''] *)
Definition is_blank (line : string) : bool := String.eqb (Py.strip line) "".

(** [line.strip() == "## Serena MCP Integration"] *)
Definition is_heading (line : string) : bool :=
  String.eqb (Py.strip line) HEADING.

(** [line.strip().startswith("## ") and not line.strip().startswith("### ")] *)
Definition is_next_section (line : string) : bool :=
  Py.startswith "## " (Py.strip line) && negb (Py.startswith "### " (Py.strip line)).

(** [already_has_serena_section] *)
Definition already_has_serena_section (content : string) : bool :=
  Py.contains HEADING content || Py.contains "serena" (Py.lower content).

(** [for i, line in enumerate(lines): if p(line): ...; break], started at
    index [i]: the index of the first line satisfying [p]. *)
Fixpoint first_index (p : string → bool) (lines : list string) (i : nat)
  : option nat :=
  match lines with
  | [] => None
  | line :: rest => if p line then Some i else first_index p rest (S i)
  end.

(** [while e > lo and lines[e - 1].strip() == '': e -= 1] *)
Fixpoint back_up (lines : list string) (lo e : nat) : nat :=
  match e with
  | 0 => 0
  | S e' =>
      if (lo <? e) &&
         match lines !! e' with Some l => is_blank l | None => false end
      then back_up lines lo e'
      else e
  end.

(** The second loop of [find_serena_section_bounds] and its default:
    the next [## ] line after [start_line], or the number of lines. *)
Definition next_section_line (lines : list string) (start_line : nat) : nat :=
  match first_index is_next_section (drop (S start_line) lines) (S start_line) with
  | Some i => i
  | None => length lines
  end.

(** [find_serena_section_bounds]; [None] stands for [(None, None)]. *)
Definition find_serena_section_bounds (content : string) : option (nat * nat) :=
  let lines := Py.split content in
  match first_index is_heading lines 0 with
  | None => None
  | Some start_line =>
      let end_line := next_section_line lines start_line in
      Some (start_line, back_up lines start_line end_line)
  end.

Definition final_sections : list string :=
  [ "## Example Interactions";
    "## Key Distinctions";
    "## Output Examples";
    "## Workflow Position";
    "## See Also" ].

(** The inner loop of [find_insertion_point]:
    [for section in final_sections: if line.strip().startswith(section):
       insertion_line = min(insertion_line, i); break] *)
Fixpoint try_sections (sections : list string) (line : string)
    (i insertion_line : nat) : nat :=
  match sections with
  | [] => insertion_line
  | section :: rest =>
      if Py.startswith section (Py.strip line) then Nat.min insertion_line i
      else try_sections rest line i insertion_line
  end.

(** The outer loop, over [enumerate(lines)] from index [i]. *)
Fixpoint scan_final_sections (lines : list string) (i insertion_line : nat)
  : nat :=
  match lines with
  | [] => insertion_line
  | line :: rest =>
      scan_final_sections rest (S i)
        (try_sections final_sections line i insertion_line)
  end.

(** [find_insertion_point] *)
Definition find_insertion_point (content : string) : nat :=
  let lines := Py.split content in
  let insertion_line := scan_final_sections lines 0 (length lines) in
  if insertion_line =? length lines then length lines
  else back_up lines 0 insertion_line.

(** [prefix + ['', ''] + template_lines + ['', ''] + suffix] *)
Definition splice (lines template_lines : list string) (upto from : nat)
  : list string :=
  take upto lines ++ [""; ""] ++ template_lines ++ [""; ""] ++ drop from lines.

Definition MSG_NO_BOUNDS : string := "Could not find Serena section bounds".
Definition MSG_REPLACED : string := "Replaced existing Serena section".
Definition MSG_ADDED : string := "Added new Serena section".

(** The replace branch of [update_agent_file]: the returned pair and the
    content written back, if any. *)
Definition replace_existing (content template : string)
  : (bool * string) * option string :=
  let lines := Py.split content in
  let template_lines := Py.split template in
  match find_serena_section_bounds content with
  | None => ((false, MSG_NO_BOUNDS), None)
  | Some (start_line, end_line) =>
      let start_line := back_up lines 0 start_line in
      let new_lines := splice lines template_lines start_line end_line in
      ((true, MSG_REPLACED), Some (Py.join new_lines))
  end.

(** The insert branch of [update_agent_file]. *)
Definition insert_new (content template : string)
  : (bool * string) * option string :=
  let lines := Py.split content in
  let template_lines := Py.split template in
  let insertion_point := find_insertion_point content in
  let new_lines := splice lines template_lines insertion_point insertion_point in
  ((true, MSG_ADDED), Some (Py.join new_lines)).

(** [update_agent_file] on the content read from the file. *)
Definition update_content (content template : string)
  : (bool * string) * option string :=
  if already_has_serena_section content
  then replace_existing content template
  else insert_new content template.

(** The per-document transformation: the new content, when one is written. *)
Definition transform (content template : string) : option string :=
  snd (update_content content template).

(** [update_agent_file] on a file system.  [None] is the exception raised
    by [open] on a missing file.  The map holds the text of each file as
    [f.read()] returns it; the other exceptions of [open], [read] and
    [write] (a directory, bytes that are not UTF-8, a write that fails) are
    outside this model. *)
Definition update_agent_file (fs : gmap string string) (file_path template : string)
  : option ((bool * string) * gmap string string) :=
  match fs !! file_path with
  | None => None
  | Some content =>
      match update_content content template with
      | (r, None) => Some (r, fs)
      | (r, Some new_content) => Some (r, <[file_path := new_content]> fs)
      end
  end.

(** The file system after [new_content], if any, is written to [file_path]. *)
Definition write_back (fs : gmap string string) (file_path : string)
    (new_content : option string) : gmap string string :=
  match new_content with
  | Some c => <[file_path := c]> fs
  | None => fs
  end.

(** ** The loop of [main] *)

Record tally := Tally {
  updated_count : nat;
  replaced_count : nat;
  added_count : nat;
  failed_count : nat
}.

(** A line printed by the loop: the check mark or the cross, the path and
    the message. *)
Inductive printed :=
| PrintOk (relative_path message : string)
| PrintFail (relative_path message : string).

Definition count_success (t : tally) (message : string) : tally :=
  let t := Tally (S (updated_count t)) (replaced_count t) (added_count t)
                 (failed_count t) in
  if Py.contains "Replaced" message
  then Tally (updated_count t) (S (replaced_count t)) (added_count t) (failed_count t)
  else if Py.contains "Added" message
  then Tally (updated_count t) (replaced_count t) (S (added_count t)) (failed_count t)
  else t.

Definition count_failure (t : tally) : tally :=
  Tally (updated_count t) (replaced_count t) (added_count t) (S (failed_count t)).

(** One iteration of [for agent_file in agent_files]. *)
Definition main_step (template : string)
    (st : gmap string string * tally * list printed) (agent_file : string)
  : option (gmap string string * tally * list printed) :=
  let '(fs, t, out) := st in
  match update_agent_file fs agent_file template with
  | None => None
  | Some ((success, message), fs') =>
      if success
      then Some (fs', count_success t message, out ++ [PrintOk agent_file message])
      else Some (fs', count_failure t, out ++ [PrintFail agent_file message])
  end.

Fixpoint main_loop (template : string) (agent_files : list string)
    (st : gmap string string * tally * list printed)
  : option (gmap string string * tally * list printed) :=
  match agent_files with
  | [] => Some st
  | agent_file :: rest =>
      match main_step template st agent_file with
      | None => None
      | Some st' => main_loop template rest st'
      end
  end.

(** ** Observations on documents used in the statements *)

(** The lines of a document that are not blank, in order. *)
Definition nonblank_lines (lines : list string) : list string :=
  List.filter (λ l, negb (is_blank l)) lines.

(** [line.strip()] starts with one of the [final_sections]. *)
Definition is_final_section (line : string) : bool :=
  existsb (λ section, Py.startswith section (Py.strip line)) final_sections.

(** The number of consecutive blank lines at the head of [lines]. *)
Fixpoint leading_blanks (lines : list string) : nat :=
  match lines with
  | l :: rest => if is_blank l then S (leading_blanks rest) else 0
  | [] => 0
  end.

(** The number of consecutive blank lines just above line [i]. *)
Definition blanks_above (lines : list string) (i : nat) : nat :=
  leading_blanks (rev (take i lines)).

(** The number of consecutive blank lines from line [j] on. *)
Definition blanks_below (lines : list string) (j : nat) : nat :=
  leading_blanks (drop j lines).

(** The block occupies lines [i .. i + length block). *)
Definition block_at (block lines : list string) (i : nat) : bool :=
  bool_decide (take (length block) (drop i lines) = block)
  && (i + length block <=? length lines).

(** The block stands at line [i] with exactly [n] blank lines above it and
    exactly [n] below it. *)
Definition framed_at (n : nat) (block lines : list string) (i : nat) : bool :=
  block_at block lines i
  && (blanks_above lines i =? n)
  && (blanks_below lines (i + length block) =? n).

(** The positions at which the block occurs. *)
Definition block_positions (block lines : list string) : list nat :=
  List.filter (block_at block lines) (seq 0 (S (length lines))).

(** Exactly one instance of the block, and that one framed by exactly [n]
    blank lines on each side. *)
Definition one_block_framed (n : nat) (block lines : list string) : bool :=
  match block_positions block lines with
  | [i] => framed_at n block lines i
  | _ => false
  end.

(** The number of [#] characters at the head of [s]. *)
Fixpoint hashes (s : string) : nat :=
  match s with
  | String c s' => if Ascii.eqb c "#"%char then S (hashes s') else 0
  | "" => 0
  end.

Fixpoint string_drop (n : nat) (s : string) : string :=
  match n, s with
  | S n', String _ s' => string_drop n' s'
  | _, _ => s
  end.

(** The level of a Markdown heading line: one to six [#] characters
    followed by a space. *)
Definition heading_level (line : string) : option nat :=
  let t := Py.strip line in
  let n := hashes t in
  if (1 <=? n) && (n <=? 6) && Py.startswith " " (string_drop n t)
  then Some n else None.

(** A heading of the level of the target heading (two) or of a higher
    level (one), as the specification words the end of the section. *)
Definition spec_same_or_higher_heading (line : string) : bool :=
  match heading_level line with
  | Some n => n <=? 2
  | None => false
  end.

(** The end boundary as the specification words it: the first line after
    [start_line] that is a heading of the same or a higher level, or the end
    of the document, moved back over the blank lines just before it. *)
Definition spec_end_boundary (lines : list string) (start_line : nat) : nat :=
  back_up lines start_line
    match first_index spec_same_or_higher_heading
            (drop (S start_line) lines) (S start_line) with
    | Some i => i
    | None => length lines
    end.

(** A template that is one target section: its first line is the target
    heading and no later line of it starts another [## ] section. *)
Definition section_template (template : string) : bool :=
  match Py.split template with
  | first :: rest =>
      is_heading first && forallb (λ l, negb (is_next_section l)) rest
  | [] => false
  end.

(** Nothing, or lines that start with a [## ] section line. *)
Definition starts_section (lines : list string) : Prop :=
  match lines with
  | [] => True
  | l :: _ => is_next_section l = true
  end.

(** Applying the transformation to its own result. *)
Definition transform_twice (content template : string) : option string :=
  transform content template ≫= λ once, transform once template.

(** The absence of the target section as the specification words it: no
    exact occurrence of the heading text and no occurrence of the keyword
    in any mix of upper and lower case. *)
Definition spec_section_absent (content : string) : Prop :=
  ¬ Py.substr HEADING content ∧
  ¬ ∃ w, Py.substr w content ∧ Py.lower w = "serena".

(** ** Documents and a template used as concrete inputs *)

Definition demo_template : string :=
  Py.join ["## Serena MCP Integration"; "new"].

Definition demo_replace_doc : string :=
  Py.join ["# Agent"; ""; "## Serena MCP Integration"; "old"; "";
           "## See Also"; "x"].

Definition demo_tight_doc : string :=
  Py.join ["# Agent"; ""; "## Serena MCP Integration"; "old"; "## See Also"].

Definition demo_level1_doc : string :=
  Py.join ["## Serena MCP Integration"; "body"; "# Next"; "more"].

Definition demo_insert_doc : string :=
  Py.join ["# Title"; ""; "## Example Interactions"; "body"].

Definition demo_prose_doc : string := "This agent uses serena for lookups.".

(** What the script writes for [demo_replace_doc] and [demo_tight_doc]. *)
Definition demo_replace_written : string :=
  Py.join ["# Agent"; ""; ""; "## Serena MCP Integration"; "new"; ""; ""; "";
           "## See Also"; "x"].

Definition demo_tight_written : string :=
  Py.join ["# Agent"; ""; ""; "## Serena MCP Integration"; "new"; ""; "";
           "## See Also"].

(** What a second run writes for [demo_replace_written]. *)
Definition demo_replace_written_twice : string :=
  Py.join ["# Agent"; ""; ""; "## Serena MCP Integration"; "new"; ""; ""; "";
           ""; ""; "## See Also"; "x"].

(** A document with two target sections, and what the script writes for it. *)
Definition demo_two_sections_doc : string :=
  Py.join ["# Agent"; "## Serena MCP Integration"; "a";
           "## Serena MCP Integration"; "b"].

Definition demo_two_sections_written : string :=
  Py.join ["# Agent"; ""; ""; "## Serena MCP Integration"; "new"; ""; "";
           "## Serena MCP Integration"; "b"].

(** The number of lines that are the target heading once trimmed. *)
Definition heading_count (lines : list string) : nat :=
  length (List.filter is_heading lines).

(** ** Further observations *)

(** Every character of [s] is white space. *)
Fixpoint all_space (s : string) : bool :=
  match s with
  | "" => true
  | String c s' => Py.is_space c && all_space s'
  end.

(** The path on a printed line. *)
Definition printed_path (p : printed) : string :=
  match p with
  | PrintOk relative_path _ => relative_path
  | PrintFail relative_path _ => relative_path
  end.

(** The counters of [main] before the loop. *)
Definition zero_tally : tally := Tally 0 0 0 0.

(** A template that mentions the keyword and has no target heading line. *)
Definition demo_keyword_template : string :=
  Py.join ["### Using Serena"; "see the docs"].

Definition demo_plain_doc : string := Py.join ["# Agent"; "text"; ""].

(** Three agent files: one that only mentions the keyword, one with the
    section, one without. *)
Definition demo_fs : gmap string string :=
  {[ "plugins/p/agents/a.md" := demo_prose_doc;
     "plugins/p/agents/b.md" := demo_tight_doc;
     "plugins/p/agents/c.md" := demo_plain_doc ]}.

Definition demo_files : list string :=
  [ "plugins/p/agents/a.md"; "plugins/p/agents/b.md"; "plugins/p/agents/c.md" ].

(** ** Facts about the string primitives *)

Section StringFacts.

Lemma sapp_nil_l s : "" +:+ s = s.
Proof. reflexivity. Qed.

Lemma sapp_cons c s t : String c s +:+ t = String c (s +:+ t).
Proof. reflexivity. Qed.

Lemma sapp_nil_r s : s +:+ "" = s.
Proof. induction s as [|c s IH]; [done|]. by rewrite sapp_cons, IH. Qed.

Lemma sapp_assoc a b c : (a +:+ b) +:+ c = a +:+ b +:+ c.
Proof.
  induction a as [|x a IH]; [done|].
  by rewrite !sapp_cons, IH.
Qed.

Lemma substr_refl s : Py.substr s s.
Proof. exists "", "". by rewrite sapp_nil_l, sapp_nil_r. Qed.

Lemma substr_trans a b c : Py.substr a b → Py.substr b c → Py.substr a c.
Proof.
  intros (p1 & q1 & ->) (p2 & q2 & ->).
  exists (p2 +:+ p1), (q1 +:+ q2). by rewrite !sapp_assoc.
Qed.

Lemma lstrip_suffix s : ∃ pre, s = pre +:+ Py.lstrip s.
Proof.
  induction s as [|c s [pre IH]]; simpl.
  - by exists "".
  - destruct (Py.is_space c).
    + exists (String c pre). by rewrite sapp_cons, <- IH.
    + by exists "".
Qed.

Lemma rstrip_prefix s : ∃ post, s = Py.rstrip s +:+ post.
Proof.
  induction s as [|c s [post IH]]; simpl.
  - by exists "".
  - destruct (Py.rstrip s) as [|d r] eqn:E.
    + destruct (Py.is_space c).
      * exists (String c s). by rewrite sapp_nil_l.
      * exists post. rewrite sapp_cons. by rewrite sapp_nil_l in IH |- *; subst.
    + exists post. by rewrite sapp_cons, <- IH.
Qed.

Lemma strip_substr s : Py.substr (Py.strip s) s.
Proof.
  unfold Py.strip.
  destruct (lstrip_suffix s) as [pre Hpre].
  destruct (rstrip_prefix (Py.lstrip s)) as [post Hpost].
  exists pre, post. by rewrite <- Hpost.
Qed.

Lemma startswith_spec p s :
  Py.startswith p s = true ↔ ∃ post, s = p +:+ post.
Proof.
  revert s. induction p as [|a p IH]; intros s; simpl.
  - split; [intros _; by exists s | done].
  - destruct s as [|b s].
    + split; [done | by intros [post ?]].
    + rewrite andb_true_iff, Ascii.eqb_eq, IH. split.
      * intros [-> [post ->]]. by exists post.
      * intros [post H]. rewrite sapp_cons in H. injection H as -> ->. eauto.
Qed.

Lemma startswith_app p q s :
  Py.startswith (p +:+ q) s = true → Py.startswith p s = true.
Proof.
  rewrite !startswith_spec. intros [post ->].
  exists (q +:+ post). by rewrite sapp_assoc.
Qed.

Lemma contains_spec w s : Py.contains w s = true ↔ Py.substr w s.
Proof.
  induction s as [|c s IH]; simpl.
  - rewrite orb_false_r, startswith_spec. split.
    + intros [post ->]. by exists "", post.
    + intros (pre & post & H). destruct pre; [by exists post|done].
  - rewrite orb_true_iff, startswith_spec, IH. split.
    + intros [[post ->] | (pre & post & ->)].
      * by exists "", post.
      * by exists (String c pre), post.
    + intros (pre & post & H). destruct pre as [|d pre].
      * left. by exists post.
      * right. rewrite sapp_cons in H. injection H as -> ->. by exists pre, post.
Qed.

Lemma lower_app a b : Py.lower (a +:+ b) = Py.lower a +:+ Py.lower b.
Proof.
  induction a as [|c a IH]; [done|].
  rewrite sapp_cons. simpl. by rewrite IH, sapp_cons.
Qed.

Lemma lower_app_inv s a b :
  Py.lower s = a +:+ b → ∃ s1 s2, s = s1 +:+ s2 ∧ Py.lower s1 = a ∧ Py.lower s2 = b.
Proof.
  revert s. induction a as [|c a IH]; intros s H.
  - by exists "", s.
  - destruct s as [|d s]; [done|].
    rewrite sapp_cons in H. simpl in H. injection H as Hc H.
    destruct (IH _ H) as (s1 & s2 & -> & <- & <-).
    exists (String d s1), s2. by rewrite sapp_cons, <- Hc.
Qed.

(** A substring of the lower-cased text is the lower-casing of a substring
    of the text: [w in s.lower()] is a case-insensitive search. *)
Lemma substr_lower w s :
  Py.substr w (Py.lower s) ↔ ∃ v, Py.substr v s ∧ Py.lower v = w.
Proof.
  split.
  - intros (pre & post & H).
    apply lower_app_inv in H as (s1 & s2 & -> & _ & H).
    apply lower_app_inv in H as (v & s3 & -> & Hv & _).
    exists v. split; [by exists s1, s3 | done].
  - intros (v & (pre & post & ->) & <-).
    exists (Py.lower pre), (Py.lower post). by rewrite !lower_app.
Qed.

Lemma split_nonempty s : Py.split s ≠ [].
Proof.
  destruct s as [|c s]; simpl; [done|].
  destruct (Ascii.eqb c Py.newline); [done|]. by destruct (Py.split s).
Qed.

Lemma split_no_newline s : Forall (λ l, Py.no_newline l = true) (Py.split s).
Proof.
  induction s as [|c s IH]; simpl.
  - by repeat constructor.
  - destruct (Ascii.eqb c Py.newline) eqn:E.
    + by constructor.
    + destruct (Py.split s) as [|l ls]; [by repeat constructor; simpl; rewrite E|].
      inversion_clear IH. constructor; [|done]. simpl. by rewrite E.
Qed.

Lemma join_cons l ls :
  ls ≠ [] → Py.join (l :: ls) = l +:+ String Py.newline (Py.join ls).
Proof. by destruct ls. Qed.

Lemma join_split s : Py.join (Py.split s) = s.
Proof.
  induction s as [|c s IH]; simpl; [done|].
  destruct (Ascii.eqb c Py.newline) eqn:E.
  - apply Ascii.eqb_eq in E as ->.
    rewrite join_cons by apply split_nonempty. by rewrite IH.
  - pose proof (split_nonempty s) as Hne.
    destruct (Py.split s) as [|l ls]; [done|].
    destruct ls as [|l' ls].
    + simpl in *. by rewrite IH.
    + rewrite join_cons in IH |- * by done. by rewrite sapp_cons, IH.
Qed.

Lemma split_app_newline l s :
  Py.no_newline l = true →
  Py.split (l +:+ String Py.newline s) = l :: Py.split s.
Proof.
  induction l as [|c l IH]; intros H; [done|].
  simpl in H. apply andb_true_iff in H as [Hc Hl].
  rewrite sapp_cons. simpl. apply negb_true_iff in Hc. rewrite Hc.
  by rewrite (IH Hl).
Qed.

Lemma split_single l : Py.no_newline l = true → Py.split l = [l].
Proof.
  induction l as [|c l IH]; intros H; [done|].
  simpl in H. apply andb_true_iff in H as [Hc Hl].
  simpl. apply negb_true_iff in Hc. by rewrite Hc, (IH Hl).
Qed.

Lemma split_join ls :
  ls ≠ [] → Forall (λ l, Py.no_newline l = true) ls →
  Py.split (Py.join ls) = ls.
Proof.
  induction ls as [|l ls IH]; [done|]. intros _ H.
  inversion_clear H as [|? ? Hl Hls].
  destruct ls as [|l' ls].
  - by apply split_single.
  - rewrite join_cons by done. rewrite split_app_newline by done.
    f_equal. by apply IH.
Qed.

Lemma join_substr ls (l : string) : l ∈ ls → Py.substr l (Py.join ls).
Proof.
  induction ls as [|x ls IH]; [by intros ?%elem_of_nil|].
  intros [->|Hin]%elem_of_cons.
  - destruct ls as [|y ls]; [apply substr_refl|].
    rewrite join_cons by done. exists "", (String Py.newline (Py.join (y :: ls))).
    by rewrite sapp_nil_l.
  - destruct ls as [|y ls]; [by apply elem_of_nil in Hin|].
    rewrite join_cons by done.
    destruct (IH Hin) as (pre & post & ->).
    exists (x +:+ String Py.newline pre), post.
    by rewrite sapp_assoc, sapp_cons.
Qed.

Lemma split_substr s (l : string) : l ∈ Py.split s → Py.substr l s.
Proof. intros H. rewrite <- (join_split s). by apply join_substr. Qed.

End StringFacts.

(** ** Facts about the loops *)

Section LoopFacts.

Implicit Types (lines : list string) (p : string → bool).

Lemma first_index_ge p lines i j : first_index p lines i = Some j → i ≤ j.
Proof.
  revert i. induction lines as [|l lines IH]; intros i; simpl; [done|].
  destruct (p l); [intros [= <-]; lia|].
  intros H%IH. lia.
Qed.

Lemma first_index_Some p lines i j :
  first_index p lines i = Some j ↔
  ∃ k l, j = i + k ∧ lines !! k = Some l ∧ p l = true ∧
         ∀ k' l', k' < k → lines !! k' = Some l' → p l' = false.
Proof.
  revert i. induction lines as [|l lines IH]; intros i; simpl.
  - split; [done | by intros (k & l & _ & ? & _)].
  - destruct (p l) eqn:Hl.
    + split.
      * intros [= <-]. exists 0, l. repeat split; [lia | done | intros; lia].
      * intros (k & l' & -> & Hk & Hp & Hmin).
        destruct k as [|k]; [f_equal; lia|].
        specialize (Hmin 0 l ltac:(lia) eq_refl). congruence.
    + rewrite IH. split.
      * intros (k & l' & -> & Hk & Hp & Hmin).
        exists (S k), l'. repeat split; [lia | done | done |].
        intros [|k'] l'' ? Hk'; simpl in Hk'; [congruence|].
        apply (Hmin k'); [lia | done].
      * intros (k & l' & -> & Hk & Hp & Hmin).
        destruct k as [|k]; simpl in Hk; [congruence|].
        exists k, l'. repeat split; [lia | done | done |].
        intros k' l'' ? Hk'. apply (Hmin (S k')); [lia | done].
Qed.

Lemma first_index_None p lines i :
  first_index p lines i = None ↔ Forall (λ l, p l = false) lines.
Proof.
  revert i. induction lines as [|l lines IH]; intros i; simpl.
  - split; [by constructor | done].
  - destruct (p l) eqn:Hl.
    + split; [done | intros H; inversion H; congruence].
    + rewrite IH. split; [by constructor | by intros H; inversion H].
Qed.

Lemma first_index_skip p X Y i :
  Forall (λ l, p l = false) X →
  first_index p (X ++ Y) i = first_index p Y (i + length X).
Proof.
  revert i. induction X as [|x X IH]; intros i H; simpl.
  - f_equal. lia.
  - inversion_clear H as [|? ? Hx HX]. rewrite Hx, IH by done. f_equal. lia.
Qed.

Lemma first_index_is_Some p lines i (l : string) :
  l ∈ lines → p l = true → is_Some (first_index p lines i).
Proof.
  intros Hin Hp. destruct (first_index p lines i) eqn:E; [done|].
  apply first_index_None in E. rewrite Forall_forall in E.
  specialize (E l Hin). congruence.
Qed.

(** *** [back_up] *)

Lemma back_up_le lines lo e : back_up lines lo e ≤ e.
Proof.
  induction e as [|e IH]; simpl; [done|].
  destruct (_ && _); lia.
Qed.

Lemma back_up_ge lines lo e : lo ≤ e → lo ≤ back_up lines lo e.
Proof.
  induction e as [|e IH]; simpl; [done|]. intros Hlo.
  destruct (lo <? S e) eqn:Hlt; simpl; [|done].
  apply Nat.ltb_lt in Hlt.
  destruct (lines !! e) as [l|]; [|done].
  destruct (is_blank l); [apply IH; lia | done].
Qed.

Lemma back_up_blank lines lo e i l :
  back_up lines lo e ≤ i → i < e → lines !! i = Some l → is_blank l = true.
Proof.
  induction e as [|e IH]; simpl; [lia|].
  destruct (lo <? S e); simpl; [|lia].
  destruct (lines !! e) as [l'|] eqn:El; [|lia].
  destruct (is_blank l') eqn:Hb; [|lia].
  intros Hr Hi Hl. destruct (decide (i = e)) as [->|]; [congruence|].
  apply IH; [done | lia | done].
Qed.

Lemma back_up_stop lines lo e :
  e ≤ length lines →
  back_up lines lo e ≤ lo ∨
  ∃ l, lines !! (back_up lines lo e - 1) = Some l ∧ is_blank l = false.
Proof.
  induction e as [|e IH]; simpl; [left; lia|]. intros He.
  destruct (lo <? S e) eqn:Hlt; simpl.
  - destruct (lines !! e) as [l|] eqn:El.
    + destruct (is_blank l) eqn:Hb; [apply IH; lia|].
      right. exists l. by replace (S e - 1) with e by lia.
    + apply lookup_ge_None in El. lia.
  - apply Nat.ltb_ge in Hlt. left. lia.
Qed.

Lemma nonblank_app X Y :
  nonblank_lines (X ++ Y) = nonblank_lines X ++ nonblank_lines Y.
Proof. apply List.filter_app. Qed.

Lemma nonblank_all_blank X :
  Forall (λ l, is_blank l = true) X → nonblank_lines X = [].
Proof.
  induction 1 as [|x X Hx _ IH]; [done|].
  unfold nonblank_lines in *. simpl. by rewrite Hx.
Qed.

Lemma nonblank_take_back_up lines lo e :
  nonblank_lines (take (back_up lines lo e) lines) = nonblank_lines (take e lines).
Proof.
  induction e as [|e IH]; simpl; [done|].
  destruct (lo <? S e); simpl; [|done].
  destruct (lines !! e) as [l|] eqn:El; [|done].
  destruct (is_blank l) eqn:Hb; [|done].
  rewrite IH, (take_S_r _ _ _ El), nonblank_app.
  rewrite (nonblank_all_blank [l]) by (by repeat constructor).
  by rewrite app_nil_r.
Qed.

Lemma nonblank_drop_back_up lines lo e :
  nonblank_lines (drop (back_up lines lo e) lines) = nonblank_lines (drop e lines).
Proof.
  induction e as [|e IH]; simpl; [done|].
  destruct (lo <? S e); simpl; [|done].
  destruct (lines !! e) as [l|] eqn:El; [|done].
  destruct (is_blank l) eqn:Hb; [|done].
  rewrite IH, (drop_S _ _ _ El).
  change (l :: drop (S e) lines) with ([l] ++ drop (S e) lines).
  rewrite nonblank_app, (nonblank_all_blank [l]) by (by repeat constructor).
  done.
Qed.

(** The lines between the backed-up position and the position the loop
    started from are blank. *)
Lemma back_up_split lines lo e :
  e ≤ length lines →
  ∃ B, drop (back_up lines lo e) lines = B ++ drop e lines ∧
       Forall (λ l, is_blank l = true) B.
Proof.
  intros He. pose proof (back_up_le lines lo e) as Hle.
  exists (take (e - back_up lines lo e) (drop (back_up lines lo e) lines)). split.
  - rewrite <- (take_drop (e - back_up lines lo e) (drop _ lines)) at 1.
    rewrite drop_drop. do 2 f_equal. lia.
  - apply Forall_forall. intros l [i Hi]%list_elem_of_lookup.
    apply lookup_take_Some in Hi as [Hi ?]. rewrite lookup_drop in Hi.
    apply (back_up_blank lines lo e (back_up lines lo e + i) l); [lia | lia | done].
Qed.

Lemma leading_blanks_rev_take lines s :
  s ≤ length lines →
  leading_blanks (rev (take (back_up lines 0 s) lines)) = 0.
Proof.
  intros Hs. destruct (back_up_stop lines 0 s Hs) as [Hle|(l & Hl & Hb)].
  - by replace (back_up lines 0 s) with 0 by lia.
  - destruct (back_up lines 0 s) as [|a] eqn:Ea; [done|].
    replace (S a - 1) with a in Hl by lia.
    rewrite (take_S_r _ _ _ Hl), rev_unit. simpl. by rewrite Hb.
Qed.

(** *** The scan for a final section *)

Lemma try_sections_spec sections line i ins :
  try_sections sections line i ins =
  if existsb (λ section, Py.startswith section (Py.strip line)) sections
  then Nat.min ins i else ins.
Proof.
  induction sections as [|s sections IH]; simpl; [done|].
  by destruct (Py.startswith s (Py.strip line)).
Qed.

Lemma scan_final_sections_spec lines i ins :
  scan_final_sections lines i ins =
  match first_index is_final_section lines i with
  | Some j => Nat.min ins j
  | None => ins
  end.
Proof.
  revert i ins.
  induction lines as [|l lines IH]; intros i ins;
    cbn [scan_final_sections first_index]; [done|].
  rewrite IH, try_sections_spec. fold (is_final_section l).
  destruct (is_final_section l); [|done].
  destruct (first_index is_final_section lines (S i)) as [j|] eqn:E; [|done].
  apply first_index_ge in E. lia.
Qed.

Lemma final_section_is_next_section line :
  is_final_section line = true → is_next_section line = true.
Proof.
  unfold is_final_section, is_next_section, final_sections.
  cbn [existsb]. rewrite !orb_true_iff.
  assert (∀ rest, Py.startswith ("## " +:+ rest) (Py.strip line) = true →
    Py.startswith "## " (Py.strip line)
    && negb (Py.startswith "### " (Py.strip line)) = true) as Hpre.
  { intros rest H%startswith_app.
    apply startswith_spec in H as [post ->]. reflexivity. }
  intros [H|[H|[H|[H|[H|H]]]]]; [| | | | |done].
  - exact (Hpre "Example Interactions" H).
  - exact (Hpre "Key Distinctions" H).
  - exact (Hpre "Output Examples" H).
  - exact (Hpre "Workflow Position" H).
  - exact (Hpre "See Also" H).
Qed.

Lemma blank_not_heading l : is_blank l = true → is_heading l = false.
Proof.
  unfold is_blank, is_heading. intros ->%String.eqb_eq. done.
Qed.

Lemma blank_not_next_section l : is_blank l = true → is_next_section l = false.
Proof.
  unfold is_blank, is_next_section. intros ->%String.eqb_eq. done.
Qed.

Lemma heading_not_blank l : is_heading l = true → is_blank l = false.
Proof.
  intros H. destruct (is_blank l) eqn:E; [|done].
  apply blank_not_heading in E. congruence.
Qed.

Lemma heading_substr l : is_heading l = true → Py.substr HEADING l.
Proof.
  unfold is_heading. intros <-%String.eqb_eq. apply strip_substr.
Qed.

End LoopFacts.

(** ** The locator *)

Section Locator.

Implicit Types (lines : list string) (content template : string).

Lemma next_section_line_spec lines s :
  s < length lines →
  s < next_section_line lines s ≤ length lines ∧
  (∀ i l, s < i < next_section_line lines s → lines !! i = Some l →
          is_next_section l = false) ∧
  starts_section (drop (next_section_line lines s) lines).
Proof.
  intros Hs. unfold next_section_line.
  destruct (first_index _ _ _) as [r|] eqn:E.
  - apply first_index_Some in E as (k & l & -> & Hk & Hl & Hmin).
    rewrite lookup_drop in Hk. pose proof (lookup_lt_Some _ _ _ Hk).
    split; [lia|]. split.
    + intros i l' Hi Hl'. apply (Hmin (i - S s)); [lia|].
      rewrite lookup_drop. by replace (S s + (i - S s)) with i by lia.
    + by rewrite (drop_S _ _ _ Hk).
  - apply first_index_None in E. split; [lia|]. split.
    + intros i l' Hi Hl'. rewrite Forall_forall in E. apply E.
      apply list_elem_of_lookup. exists (i - S s).
      rewrite lookup_drop. by replace (S s + (i - S s)) with i by lia.
    + by rewrite drop_all.
Qed.

Lemma bounds_Some content s e :
  find_serena_section_bounds content = Some (s, e) ↔
  first_index is_heading (Py.split content) 0 = Some s ∧
  e = back_up (Py.split content) s (next_section_line (Py.split content) s).
Proof.
  unfold find_serena_section_bounds.
  destruct (first_index is_heading (Py.split content) 0) as [s'|].
  - split; [by intros [= -> <-] | by intros [[= ->] ->]].
  - split; [done | by intros [? _]].
Qed.

Lemma bounds_None content :
  find_serena_section_bounds content = None ↔
  Forall (λ l, is_heading l = false) (Py.split content).
Proof.
  unfold find_serena_section_bounds.
  rewrite <- (first_index_None is_heading _ 0).
  by destruct (first_index is_heading (Py.split content) 0).
Qed.

Lemma first_heading_facts lines s :
  first_index is_heading lines 0 = Some s →
  s < length lines ∧
  (∃ l, lines !! s = Some l ∧ is_heading l = true) ∧
  Forall (λ l, is_heading l = false) (take s lines).
Proof.
  intros (k & l & -> & Hk & Hl & Hmin)%first_index_Some. simpl.
  split; [by eapply lookup_lt_Some|]. split; [by exists l|].
  apply Forall_forall. intros l' [i Hi]%list_elem_of_lookup.
  apply lookup_take_Some in Hi as [Hi ?]. by apply (Hmin i).
Qed.

(** The insertion line found by the scan: the first final-section line,
    or the number of lines. *)
Lemma insertion_point_spec content :
  let lines := Py.split content in
  find_insertion_point content =
  match first_index is_final_section lines 0 with
  | Some a => back_up lines 0 a
  | None => length lines
  end.
Proof.
  intros lines. unfold find_insertion_point. fold lines.
  rewrite scan_final_sections_spec.
  destruct (first_index is_final_section lines 0) as [a|] eqn:E.
  - apply first_index_Some in E as (k & l & -> & Hk & _).
    pose proof (lookup_lt_Some _ _ _ Hk). simpl.
    rewrite Nat.min_r by lia.
    destruct (k =? length lines) eqn:Ek; [apply Nat.eqb_eq in Ek; lia|done].
  - by rewrite Nat.eqb_refl.
Qed.

Lemma no_heading_line content :
  Py.contains HEADING content = false →
  Forall (λ l, is_heading l = false) (Py.split content).
Proof.
  intros Hc. apply Forall_forall. intros l Hl.
  destruct (is_heading l) eqn:E; [|done].
  assert (Py.contains HEADING content = true); [|congruence].
  apply contains_spec. eapply substr_trans; [by apply heading_substr|].
  by apply split_substr.
Qed.

Lemma insertion_point_le content :
  find_insertion_point content ≤ length (Py.split content).
Proof.
  rewrite insertion_point_spec.
  destruct (first_index _ _ _) as [a|] eqn:Ha; [|done].
  apply first_index_Some in Ha as (k & l & -> & Hk & _).
  apply lookup_lt_Some in Hk. pose proof (back_up_le (Py.split content) 0 k).
  simpl. lia.
Qed.

End Locator.

(** ** The splicer *)

Section Splicer.

Implicit Types (lines : list string) (content template : string).

Lemma splice_no_newline lines T a b :
  Forall (λ l, Py.no_newline l = true) lines →
  Forall (λ l, Py.no_newline l = true) T →
  Forall (λ l, Py.no_newline l = true) (splice lines T a b).
Proof.
  intros Hl HT. unfold splice.
  repeat (apply Forall_app; split); auto using Forall_take, Forall_drop.
  all: by repeat constructor.
Qed.

Lemma splice_nonempty lines T a b : splice lines T a b ≠ [].
Proof. unfold splice. by destruct (take a lines). Qed.

(** What is written back splits into the spliced lines again. *)
Lemma split_join_splice content template a b :
  Py.split (Py.join (splice (Py.split content) (Py.split template) a b)) =
  splice (Py.split content) (Py.split template) a b.
Proof.
  apply split_join; [apply splice_nonempty|].
  apply splice_no_newline; apply split_no_newline.
Qed.

Lemma nonblank_splice lines T lo s lo' r :
  nonblank_lines (splice lines T (back_up lines lo s) (back_up lines lo' r)) =
  nonblank_lines (take s lines) ++ nonblank_lines T ++ nonblank_lines (drop r lines).
Proof.
  unfold splice. rewrite !nonblank_app.
  by rewrite nonblank_take_back_up, nonblank_drop_back_up.
Qed.

Lemma replace_existing_Some content template s e :
  find_serena_section_bounds content = Some (s, e) →
  replace_existing content template =
  ((true, MSG_REPLACED),
   Some (Py.join (splice (Py.split content) (Py.split template)
                    (back_up (Py.split content) 0 s) e))).
Proof. unfold replace_existing. by intros ->. Qed.

(** The shape of every document that is written back: lines without a
    target heading, the two blank lines, the template, the two blank
    lines, and a suffix made of blank lines followed by nothing or by a
    [## ] section line. *)
Lemma written_shape content template r new_content :
  update_content content template = (r, Some new_content) →
  ∃ P B S,
    new_content =
      Py.join (P ++ [""; ""] ++ Py.split template ++ [""; ""] ++ B ++ S) ∧
    Forall (λ l, is_heading l = false) P ∧
    Forall (λ l, is_blank l = true) B ∧
    starts_section S ∧
    Forall (λ l, Py.no_newline l = true) (P ++ B ++ S) ∧
    (snd r = MSG_REPLACED → leading_blanks (rev P) = 0).
Proof.
  unfold update_content. set (lines := Py.split content).
  pose proof (split_no_newline content) as Hnl. fold lines in Hnl.
  destruct (already_has_serena_section content) eqn:Hhas.
  - destruct (find_serena_section_bounds content) as [[s e]|] eqn:Hb;
      [|unfold replace_existing; by rewrite Hb].
    rewrite (replace_existing_Some _ _ _ _ Hb). intros [= _ <-]. fold lines.
    apply bounds_Some in Hb as [Hs ->]. fold lines in Hs |- *.
    destruct (first_heading_facts _ _ Hs) as (Hlen & _ & Hno).
    destruct (next_section_line_spec lines s Hlen) as (Hr & _ & Hsec).
    destruct (back_up_split lines s (next_section_line lines s)) as (B & HB & Hblank);
      [lia|].
    exists (take (back_up lines 0 s) lines), B, (drop (next_section_line lines s) lines).
    split; [unfold splice; by rewrite HB|].
    split.
    { pose proof (back_up_le lines 0 s).
      replace (take (back_up lines 0 s) lines)
        with (take (back_up lines 0 s) (take s lines))
        by (rewrite take_take; f_equal; lia).
      by apply Forall_take. }
    split; [done|]. split; [done|]. split.
    { rewrite <- HB. apply Forall_app. split; auto using Forall_take, Forall_drop. }
    intros _. apply leading_blanks_rev_take. lia.
  - unfold insert_new. intros [= <- <-]. fold lines.
    assert (snd (true, MSG_ADDED) = MSG_REPLACED → False) as Hmsg
      by (intros Hm; vm_compute in Hm; discriminate).
    apply orb_false_iff in Hhas as [Hhead _].
    pose proof (no_heading_line _ Hhead) as Hno. fold lines in Hno.
    rewrite insertion_point_spec. fold lines.
    destruct (first_index is_final_section lines 0) as [a|] eqn:Ha.
    + apply first_index_Some in Ha as (k & l & -> & Hk & Hl & _). simpl.
      pose proof (lookup_lt_Some _ _ _ Hk).
      destruct (back_up_split lines 0 k) as (B & HB & Hblank); [lia|].
      exists (take (back_up lines 0 k) lines), B, (drop k lines).
      split; [unfold splice; by rewrite HB|].
      split; [by apply Forall_take|]. split; [done|]. split.
      { rewrite (drop_S _ _ _ Hk). by apply final_section_is_next_section. }
      split; [|by intros ?%Hmsg].
      rewrite <- HB. apply Forall_app. split; auto using Forall_take, Forall_drop.
    + exists lines, [], [].
      split; [unfold splice; by rewrite drop_all, firstn_all|].
      split; [done|]. split; [done|]. split; [done|].
      split; [by rewrite app_nil_r | by intros ?%Hmsg].
Qed.

Lemma is_heading_empty : is_heading "" = false.
Proof. reflexivity. Qed.

Lemma is_next_section_empty : is_next_section "" = false.
Proof. reflexivity. Qed.

Lemma two_blank_not_next_section :
  Forall (λ l, is_next_section l = false) [""; ""].
Proof. by repeat constructor. Qed.

(** Running the script on a document of the written shape, with a
    template that is one target section: the section is found again and
    replaced, and the lines that are not blank stay as they are. *)
Lemma rerun_written P B Sfx template :
  section_template template = true →
  Forall (λ l, is_heading l = false) P →
  Forall (λ l, is_blank l = true) B →
  starts_section Sfx →
  Forall (λ l, Py.no_newline l = true) (P ++ B ++ Sfx) →
  let written := P ++ [""; ""] ++ Py.split template ++ [""; ""] ++ B ++ Sfx in
  Py.split (Py.join written) = written ∧
  ∃ again,
    update_content (Py.join written) template = ((true, MSG_REPLACED), Some again) ∧
    nonblank_lines (Py.split again) = nonblank_lines written.
Proof.
  intros HT HP HB HS Hnl written. unfold section_template in HT.
  pose proof (split_no_newline template) as HTnl.
  destruct (Py.split template) as [|t0 T'] eqn:ET; [done|].
  apply andb_true_iff in HT as [Ht0 HT'].
  assert (Forall (λ l, is_next_section l = false) T') as HT'no.
  { apply Forall_forall. intros l Hl%list_elem_of_In.
    pose proof (proj1 (forallb_forall _ _) HT' l Hl) as Hneg.
    by apply negb_true_iff in Hneg. }
  apply Forall_app in Hnl as [HPnl Hnl]. apply Forall_app in Hnl as [HBnl HSnl].
  assert (Forall (λ l, Py.no_newline l = true) written) as Hwnl.
  { unfold written. repeat (apply Forall_app; split); try done.
    all: by repeat constructor. }
  assert (Py.split (Py.join written) = written) as Hsplit.
  { apply split_join; [|done]. unfold written. by destruct P. }
  assert (already_has_serena_section (Py.join written) = true) as Hhas.
  { unfold already_has_serena_section. apply orb_true_iff. left.
    apply contains_spec. eapply substr_trans; [by apply heading_substr|].
    apply join_substr. unfold written. set_solver. }
  assert (first_index is_heading written 0 = Some (length P + 2)) as Hfirst.
  { unfold written. rewrite first_index_skip by done.
    cbn [app first_index]. rewrite is_heading_empty, Ht0. f_equal. lia. }
  set (n2 := length P + 2 + S (length T') + 2 + length B).
  assert (written = (P ++ [""; ""] ++ (t0 :: T') ++ [""; ""] ++ B) ++ Sfx) as Hw2.
  { unfold written. by rewrite <- !app_assoc. }
  assert (length (P ++ [""; ""] ++ (t0 :: T') ++ [""; ""] ++ B) = n2) as Hlen2.
  { rewrite !length_app. simpl. unfold n2. lia. }
  assert (next_section_line written (length P + 2) = n2) as Hnext.
  { unfold next_section_line.
    assert (drop (S (length P + 2)) written = T' ++ [""; ""] ++ B ++ Sfx) as ->.
    { unfold written.
      change (P ++ [""; ""] ++ (t0 :: T') ++ [""; ""] ++ B ++ Sfx)
        with (P ++ [""; ""; t0] ++ T' ++ [""; ""] ++ B ++ Sfx).
      rewrite (app_assoc P). apply drop_app_length'.
      rewrite length_app. simpl. lia. }
    rewrite first_index_skip by done.
    rewrite first_index_skip by apply two_blank_not_next_section.
    rewrite first_index_skip
      by (eapply Forall_impl; [exact HB | apply blank_not_next_section]).
    destruct Sfx as [|h S']; simpl.
    - rewrite Hw2, app_nil_r. exact Hlen2.
    - simpl in HS. rewrite HS. unfold n2. lia. }
  assert (find_serena_section_bounds (Py.join written) =
          Some (length P + 2, back_up written (length P + 2) n2)) as Hb.
  { apply bounds_Some. by rewrite Hsplit, Hnext. }
  split; [done|].
  unfold update_content. rewrite Hhas, (replace_existing_Some _ _ _ _ Hb).
  eexists. split; [reflexivity|].
  rewrite Hsplit, ET.
  rewrite split_join; [|apply splice_nonempty|by apply splice_no_newline].
  rewrite nonblank_splice.
  assert (take (length P + 2) written = P ++ [""; ""]) as ->.
  { unfold written. rewrite app_assoc. apply take_app_length'.
    rewrite length_app. simpl. lia. }
  assert (drop n2 written = Sfx) as ->.
  { rewrite Hw2. by apply drop_app_length'. }
  unfold written. rewrite !nonblank_app.
  rewrite (nonblank_all_blank B) by done.
  change (nonblank_lines [""; ""]) with (@nil string). by rewrite !app_nil_r.
Qed.

End Splicer.

(** ** Running the script again *)

Section Rerun.

Implicit Types (content template : string).

Lemma transform_Some content template out :
  transform content template = Some out →
  ∃ r, update_content content template = (r, Some out).
Proof.
  unfold transform. destruct (update_content content template) as [r o].
  simpl. intros ->. by exists r.
Qed.

(** With a template that is one target section (its first line is the
    target heading, no later line starts a [## ] section), a second run
    finds the section written by the first run and replaces it; the two
    results have the same lines apart from blank lines. *)
Lemma rerun_same_nonblank_lines content template once :
  section_template template = true →
  transform content template = Some once →
  ∃ again,
    update_content once template = ((true, MSG_REPLACED), Some again) ∧
    nonblank_lines (Py.split again) = nonblank_lines (Py.split once).
Proof.
  intros HT [r Hout]%transform_Some.
  destruct (written_shape _ _ _ _ Hout)
    as (P & B & Sfx & -> & HP & HB & HS & Hnl & _).
  destruct (rerun_written P B Sfx template HT HP HB HS Hnl)
    as (Hsplit & again & Hagain & Hnb).
  exists again. split; [done|]. by rewrite Hsplit.
Qed.

(** C1 at a document with the section and a template that is one section:
    the second run does not give the result of the first run again.  The
    first run leaves three blank lines below the block, the second run
    five; the lines that are not blank are the same. *)
Theorem second_run_adds_blank_lines :
  transform demo_replace_doc demo_template = Some demo_replace_written ∧
  transform demo_replace_written demo_template = Some demo_replace_written_twice ∧
  transform_twice demo_replace_doc demo_template
    ≠ transform demo_replace_doc demo_template ∧
  blanks_below (Py.split demo_replace_written) 5 = 3 ∧
  blanks_below (Py.split demo_replace_written_twice) 5 = 5 ∧
  nonblank_lines (Py.split demo_replace_written_twice) =
    nonblank_lines (Py.split demo_replace_written).
Proof. vm_compute. repeat split. intros [=]. Qed.

End Rerun.

(** ** The replaced range and what surrounds it *)

Section Replace.

Implicit Types (lines : list string) (content template : string).

Lemma back_up_gt lines lo e l :
  lo < e → lines !! lo = Some l → is_blank l = false →
  lo < back_up lines lo e.
Proof.
  intros Hlt Hl Hb. induction e as [|e IH]; simpl; [lia|].
  destruct (lo <? S e) eqn:E; simpl; [|lia].
  destruct (lines !! e) as [l'|] eqn:El; [|lia].
  destruct (is_blank l') eqn:Hb'; [|lia].
  destruct (decide (lo = e)) as [->|]; [congruence|]. apply IH. lia.
Qed.

(** The bounds of a found section: the heading line is the first one of
    the document, and the range from it to the end boundary is not empty. *)
Lemma bounds_range content s e :
  find_serena_section_bounds content = Some (s, e) →
  let lines := Py.split content in
  back_up lines 0 s ≤ s ∧ s < e ∧ e ≤ next_section_line lines s ∧
  next_section_line lines s ≤ length lines ∧
  ∃ l, lines !! s = Some l ∧ is_heading l = true.
Proof.
  intros [Hs ->]%bounds_Some lines. fold lines in Hs |- *.
  destruct (first_heading_facts _ _ Hs) as (Hlen & (l & Hl & Hh) & _).
  destruct (next_section_line_spec lines s Hlen) as (Hr & _).
  split; [apply back_up_le|]. split.
  { eapply back_up_gt; [lia | done | by apply heading_not_blank]. }
  split; [apply back_up_le|]. split; [lia|]. by exists l.
Qed.

Lemma replaced_inv content template out :
  update_content content template = ((true, MSG_REPLACED), Some out) →
  ∃ s e,
    find_serena_section_bounds content = Some (s, e) ∧
    out = Py.join (splice (Py.split content) (Py.split template)
                     (back_up (Py.split content) 0 s) e).
Proof.
  unfold update_content.
  destruct (already_has_serena_section content); [|by unfold insert_new].
  destruct (find_serena_section_bounds content) as [[s e]|] eqn:Hb.
  - rewrite (replace_existing_Some _ _ _ _ Hb). intros [= <-]. by exists s, e.
  - unfold replace_existing. by rewrite Hb.
Qed.

(** C8.  In replace mode the lines from the end boundary on are the lines
    of the result after the template and its two blank lines, unchanged and
    in order; the lines before the range are kept as well, and only the
    range between them is replaced. *)
Theorem replace_keeps_lines_after_end content template out :
  update_content content template = ((true, MSG_REPLACED), Some out) →
  ∃ s e,
    find_serena_section_bounds content = Some (s, e) ∧
    let lines := Py.split content in
    let a := back_up lines 0 s in
    let t := length (Py.split template) in
    a ≤ s ∧ s < e ∧ e ≤ length lines ∧
    Py.split out =
      take a lines ++ [""; ""] ++ Py.split template ++ [""; ""] ++ drop e lines ∧
    take a (Py.split out) = take a lines ∧
    drop (a + 2 + t + 2) (Py.split out) = drop e lines ∧
    ∀ i, Py.split out !! (a + 2 + t + 2 + i) = lines !! (e + i).
Proof.
  intros (s & e & Hb & ->)%replaced_inv. exists s, e. split; [done|].
  intros lines a t.
  destruct (bounds_range _ _ _ Hb) as (Ha & Hse & He & Hr & _).
  fold lines in Ha, He, Hr. fold a in Ha.
  rewrite split_join_splice. fold lines. unfold splice. fold a.
  assert (length (take a lines) = a) as Hla by (rewrite length_take; lia).
  assert (drop (a + 2 + t + 2)
            (take a lines ++ [""; ""] ++ Py.split template ++ [""; ""] ++ drop e lines)
          = drop e lines) as Hdrop.
  { rewrite (app_assoc (take a lines)), (app_assoc _ (Py.split template)).
    rewrite (app_assoc _ [""; ""] (drop e lines)).
    apply drop_app_length'. rewrite !length_app, Hla. simpl. unfold t. lia. }
  repeat split; try done; try lia.
  - by apply take_app_length'.
  - intros i. by rewrite <- lookup_drop, Hdrop, lookup_drop.
Qed.

Lemma replace_keeps_lines_after_end_witness :
  ∃ s e,
    find_serena_section_bounds demo_replace_doc = Some (s, e) ∧
    let lines := Py.split demo_replace_doc in
    let a := back_up lines 0 s in
    let t := length (Py.split demo_template) in
    a ≤ s ∧ s < e ∧ e ≤ length lines ∧
    Py.split
      demo_replace_written =
      take a lines ++ [""; ""] ++ Py.split demo_template ++ [""; ""] ++ drop e lines ∧
    take a
      (Py.split
         demo_replace_written) = take a lines ∧
    drop (a + 2 + t + 2)
      (Py.split
         demo_replace_written) = drop e lines ∧
    ∀ i,
      Py.split
        demo_replace_written !! (a + 2 + t + 2 + i)
      = lines !! (e + i).
Proof.
  apply (replace_keeps_lines_after_end demo_replace_doc demo_template).
  vm_compute. reflexivity.
Defined.

End Replace.

(** ** The layout of a written document *)

Section Layout.

Implicit Types (lines : list string) (content template : string).

Lemma heading_count_app X Y :
  heading_count (X ++ Y) = heading_count X + heading_count Y.
Proof. unfold heading_count. by rewrite List.filter_app, length_app. Qed.

Lemma heading_count_none X :
  Forall (λ l, is_heading l = false) X → heading_count X = 0.
Proof.
  induction 1 as [|x X Hx _ IH]; [done|].
  unfold heading_count in *. simpl. by rewrite Hx.
Qed.

Lemma splice_block lines T a b :
  a ≤ length lines →
  Forall (λ l, is_heading l = false) (take a lines) →
  block_at T (splice lines T a b) (a + 2) = true ∧
  heading_count (splice lines T a b) = heading_count T + heading_count (drop b lines).
Proof.
  intros Ha Hno. unfold splice.
  assert (length (take a lines) = a) as Hla by (rewrite length_take; lia).
  split.
  - unfold block_at. apply andb_true_iff. split.
    + apply bool_decide_eq_true. rewrite (app_assoc (take a lines)).
      rewrite drop_app_length' by (rewrite length_app, Hla; simpl; lia).
      by rewrite take_app_length.
    + apply Nat.leb_le. rewrite !length_app, Hla. simpl. lia.
  - rewrite !heading_count_app, (heading_count_none _ Hno).
    change (heading_count [""; ""]) with 0. lia.
Qed.

Lemma splice_blanks_above lines T a b :
  a ≤ length lines →
  leading_blanks (rev (take a lines)) = 0 →
  blanks_above (splice lines T a b) (a + 2) = 2.
Proof.
  intros Ha H0. unfold blanks_above, splice.
  rewrite (app_assoc (take a lines)).
  rewrite take_app_length' by (rewrite length_app, length_take; simpl; lia).
  rewrite rev_app_distr. simpl.
  change (is_blank "") with true. cbv iota. by rewrite H0.
Qed.

(** C3, as the code has it.  A document that is written back consists of
    the lines of the document before the replaced range or the insertion
    point, two blank lines, the template block as it is, two blank lines,
    and the lines of the document from the end boundary or the insertion
    point on.  The block is framed by two blank lines, not one; when a
    section was replaced, the blank lines that stood above it are
    collapsed, so that exactly two stand above the block.  No target
    heading stands above the block, and the target headings of the result
    are those of the template and those the document had after the
    replaced section: one occurrence when the template has one and the
    document had no second section. *)
Theorem written_document_layout content template r out :
  update_content content template = (r, Some out) →
  ∃ a b,
    let lines := Py.split content in
    a ≤ b ∧ b ≤ length lines ∧
    Py.split out =
      take a lines ++ [""; ""] ++ Py.split template ++ [""; ""] ++ drop b lines ∧
    ((r = (true, MSG_ADDED) ∧ a = find_insertion_point content ∧ b = a) ∨
     (r = (true, MSG_REPLACED) ∧
      (∃ s, find_serena_section_bounds content = Some (s, b) ∧
            a = back_up lines 0 s) ∧
      blanks_above (Py.split out) (a + 2) = 2)) ∧
    Forall (λ l, is_heading l = false) (take a lines) ∧
    block_at (Py.split template) (Py.split out) (a + 2) = true ∧
    heading_count (Py.split out) =
      heading_count (Py.split template) + heading_count (drop b lines).
Proof.
  unfold update_content.
  destruct (already_has_serena_section content) eqn:Hhas.
  - destruct (find_serena_section_bounds content) as [[s e]|] eqn:Hb;
      [|unfold replace_existing; by rewrite Hb].
    rewrite (replace_existing_Some _ _ _ _ Hb). intros [= <- <-].
    exists (back_up (Py.split content) 0 s), e. cbv zeta.
    rewrite split_join_splice. set (lines := Py.split content).
    destruct (bounds_range _ _ _ Hb) as (Ha & Hse & He & Hr & l & Hl & _).
    fold lines in Ha, He, Hr, Hl.
    pose proof (lookup_lt_Some _ _ _ Hl) as Hlen.
    apply bounds_Some in Hb as [Hs He']. fold lines in Hs, He'.
    destruct (first_heading_facts _ _ Hs) as (_ & _ & Hno).
    assert (Forall (λ l, is_heading l = false) (take (back_up lines 0 s) lines))
      as Hno'.
    { replace (take (back_up lines 0 s) lines)
        with (take (back_up lines 0 s) (take s lines))
        by (rewrite take_take; f_equal; lia).
      by apply Forall_take. }
    destruct (splice_block lines (Py.split template) (back_up lines 0 s) e)
      as [Hblock Hcount]; [lia | done |].
    split; [lia|]. split; [lia|]. split; [done|]. split; [|done].
    right. split; [done|]. split.
    + by exists s.
    + apply splice_blanks_above; [lia|]. apply leading_blanks_rev_take. lia.
  - unfold insert_new. intros [= <- <-].
    exists (find_insertion_point content), (find_insertion_point content).
    cbv zeta. rewrite split_join_splice. set (lines := Py.split content).
    pose proof (insertion_point_le content) as Hip. fold lines in Hip.
    apply orb_false_iff in Hhas as [Hhead _].
    pose proof (no_heading_line _ Hhead) as Hno. fold lines in Hno.
    destruct (splice_block lines (Py.split template)
                (find_insertion_point content) (find_insertion_point content))
      as [Hblock Hcount]; [done | by apply Forall_take |].
    split; [done|]. split; [done|]. split; [done|]. split; [by left|].
    split; [by apply Forall_take | done].
Qed.

Lemma written_document_layout_witness :
  ∃ a b,
    let lines := Py.split demo_tight_doc in
    a ≤ b ∧ b ≤ length lines ∧
    Py.split demo_tight_written =
      take a lines ++ [""; ""] ++ Py.split demo_template ++ [""; ""]
      ++ drop b lines ∧
    (((true, MSG_REPLACED) = (true, MSG_ADDED) ∧
      a = find_insertion_point demo_tight_doc ∧ b = a) ∨
     ((true, MSG_REPLACED) = (true, MSG_REPLACED) ∧
      (∃ s, find_serena_section_bounds demo_tight_doc = Some (s, b) ∧
            a = back_up lines 0 s) ∧
      blanks_above (Py.split demo_tight_written) (a + 2) = 2)) ∧
    Forall (λ l, is_heading l = false) (take a lines) ∧
    block_at (Py.split demo_template) (Py.split demo_tight_written) (a + 2)
      = true ∧
    heading_count (Py.split demo_tight_written) =
      heading_count (Py.split demo_template) + heading_count (drop b lines).
Proof.
  apply (written_document_layout demo_tight_doc demo_template (true, MSG_REPLACED)).
  vm_compute. reflexivity.
Defined.

(** C3, as the specification states it, fails on a document with two
    target sections: the block is framed by two blank lines on each side,
    not by one, and the second section stays, so the result has two
    occurrences of the target heading. *)
Lemma one_blank_line_counterexample :
  transform demo_two_sections_doc demo_template = Some demo_two_sections_written ∧
  one_block_framed 1 (Py.split demo_template) (Py.split demo_two_sections_written)
    = false ∧
  blanks_above (Py.split demo_two_sections_written) 3 = 2 ∧
  blanks_below (Py.split demo_two_sections_written) 5 = 2 ∧
  heading_count (Py.split demo_two_sections_written) = 2.
Proof. vm_compute. by repeat split. Qed.

(** C2 at a document whose section is followed by one blank line and the
    next heading: the block is written once, two blank lines stand above
    it and three below it. *)
Theorem replace_leaves_three_blank_lines_below :
  transform demo_replace_doc demo_template = Some demo_replace_written ∧
  block_positions (Py.split demo_template) (Py.split demo_replace_written) = [3] ∧
  blanks_above (Py.split demo_replace_written) 3 = 2 ∧
  blanks_below (Py.split demo_replace_written) 5 = 3 ∧
  one_block_framed 2 (Py.split demo_template) (Py.split demo_replace_written) = false.
Proof. vm_compute. by repeat split. Qed.

(** A run that writes never writes the content it read: the script has no
    fixed point. *)
Lemma transform_changes content template out :
  transform content template = Some out → out ≠ content.
Proof.
  intros [r Hout]%transform_Some ->.
  set (lines := Py.split content). set (T := Py.split template).
  revert Hout. unfold update_content.
  destruct (already_has_serena_section content).
  - destruct (find_serena_section_bounds content) as [[s e]|] eqn:Hb;
      [|unfold replace_existing; by rewrite Hb].
    rewrite (replace_existing_Some _ _ _ _ Hb). intros [= _ Heq].
    apply (f_equal Py.split) in Heq. rewrite split_join_splice in Heq.
    fold lines T in Heq.
    destruct (bounds_range _ _ _ Hb) as (Ha & Hse & He & Hr & l & Hl & Hh).
    fold lines in Ha, He, Hr, Hl.
    apply bounds_Some in Hb as [_ ->]. fold lines in Heq, Hse, He.
    set (e := back_up lines s (next_section_line lines s)) in *.
    set (a := back_up lines 0 s) in *.
    destruct (back_up_stop lines s (next_section_line lines s) Hr)
      as [?|(l' & Hl' & Hb')]; [fold e in H; lia|]. fold e in Hl'.
    assert (length (take a lines) = a) as Hla by (rewrite length_take; lia).
    assert (length (take a lines ++ [""; ""] ++ T ++ [""]) = e - 1) as Hlen.
    { apply (f_equal length) in Heq. unfold splice in Heq.
      rewrite !length_app, length_drop, Hla in Heq. simpl in Heq.
      rewrite !length_app, Hla. simpl. lia. }
    assert (splice lines T a e !! (e - 1) = Some "") as Hmid.
    { assert (splice lines T a e =
              (take a lines ++ [""; ""] ++ T ++ [""]) ++ "" :: drop e lines) as ->
        by (unfold splice; by rewrite <- !app_assoc).
      by apply list_lookup_middle. }
    rewrite Heq, Hl' in Hmid. by injection Hmid as ->.
  - unfold insert_new. intros [= _ Heq].
    apply (f_equal Py.split) in Heq. rewrite split_join_splice in Heq.
    apply (f_equal length) in Heq. unfold splice in Heq.
    rewrite !length_app, length_take, length_drop in Heq. simpl in Heq. lia.
Qed.

End Layout.

(** ** The claims on the locator *)

Section LocatorClaims.

Implicit Types (lines : list string) (content template : string).

(** The second test of [is_next_section] never decides: a text that starts
    with [## ] does not start with [### ]. *)
Lemma is_next_section_level2 line :
  is_next_section line = Py.startswith "## " (Py.strip line).
Proof.
  unfold is_next_section.
  destruct (Py.startswith "## " (Py.strip line)) eqn:E; [|done].
  apply startswith_spec in E as [post ->]. reflexivity.
Qed.

Lemma is_blank_strip line : is_blank line = true ↔ Py.strip line = "".
Proof. apply String.eqb_eq. Qed.

Lemma is_heading_strip line : is_heading line = true ↔ Py.strip line = HEADING.
Proof. apply String.eqb_eq. Qed.

Lemma heading_line_found content :
  (∃ line, line ∈ Py.split content ∧ Py.strip line = HEADING) →
  ∃ s e, find_serena_section_bounds content = Some (s, e).
Proof.
  intros (line & Hin & Hs). unfold find_serena_section_bounds.
  destruct (first_index_is_Some is_heading (Py.split content) 0 line Hin)
    as [s ->]; [by apply is_heading_strip|]. eauto.
Qed.

(** C4, as the code has it.  For a document with a line whose trimmed text
    is the target heading, the section starts at the first such line [s];
    the scan stops at [r], the first later line whose trimmed text starts
    with [## ] (a level-two heading: a level-one [# ] heading does not stop
    it), or at the end of the document; the end boundary [e] is [r] moved
    back over the blank lines just before it, so that line [e - 1] is not
    blank. *)
Theorem section_end_boundary content :
  (∃ line, line ∈ Py.split content ∧ Py.strip line = HEADING) →
  ∃ s e r,
    find_serena_section_bounds content = Some (s, e) ∧
    let lines := Py.split content in
    (∃ l, lines !! s = Some l ∧ Py.strip l = HEADING) ∧
    (∀ i l, i < s → lines !! i = Some l → Py.strip l ≠ HEADING) ∧
    s < r ∧ r ≤ length lines ∧
    (r = length lines ∨
     ∃ l, lines !! r = Some l ∧ Py.startswith "## " (Py.strip l) = true) ∧
    (∀ i l, s < i < r → lines !! i = Some l →
            Py.startswith "## " (Py.strip l) = false) ∧
    s < e ∧ e ≤ r ∧
    (∀ i l, e ≤ i < r → lines !! i = Some l → Py.strip l = "") ∧
    (∃ l, lines !! (e - 1) = Some l ∧ Py.strip l ≠ "").
Proof.
  intros (s & e & Hb)%heading_line_found.
  exists s, e, (next_section_line (Py.split content) s). split; [done|].
  intros lines. fold lines.
  destruct (bounds_range _ _ _ Hb) as (_ & Hse & He & Hr & l & Hl & Hh).
  fold lines in He, Hr, Hl.
  apply bounds_Some in Hb as [Hs ->]. fold lines in Hs, Hse, He |- *.
  destruct (first_heading_facts _ _ Hs) as (_ & _ & Hno).
  pose proof (lookup_lt_Some _ _ _ Hl) as Hlen.
  destruct (next_section_line_spec lines s Hlen) as ([Hsr _] & Hmin & Hsec).
  split; [exists l; split; [done | by apply is_heading_strip]|].
  split.
  { intros i line Hi Hline Hstrip%is_heading_strip.
    rewrite Forall_forall in Hno.
    assert (is_heading line = false); [|congruence].
    apply Hno, list_elem_of_lookup. exists i. by rewrite lookup_take_lt. }
  split; [done|]. split; [done|]. split.
  { destruct (decide (next_section_line lines s = length lines)) as [|Hne];
      [by left|right].
    destruct (lines !! next_section_line lines s) as [l'|] eqn:El.
    - rewrite (drop_S _ _ _ El) in Hsec. simpl in Hsec.
      exists l'. by rewrite <- is_next_section_level2.
    - apply lookup_ge_None in El. lia. }
  split.
  { intros i l' Hi Hl'. rewrite <- is_next_section_level2. by eapply Hmin. }
  split; [done|]. split; [done|]. split.
  { intros i l' Hi Hl'. apply is_blank_strip.
    apply (back_up_blank lines s (next_section_line lines s) i l');
      [lia | lia | done]. }
  destruct (back_up_stop lines s (next_section_line lines s) Hr)
    as [?|(l' & Hl' & Hb')]; [lia|].
  exists l'. split; [done|]. intros Hblank%is_blank_strip. congruence.
Qed.

Lemma section_end_boundary_witness :
  ∃ s e r,
    find_serena_section_bounds demo_replace_doc = Some (s, e) ∧
    let lines := Py.split demo_replace_doc in
    (∃ l, lines !! s = Some l ∧ Py.strip l = HEADING) ∧
    (∀ i l, i < s → lines !! i = Some l → Py.strip l ≠ HEADING) ∧
    s < r ∧ r ≤ length lines ∧
    (r = length lines ∨
     ∃ l, lines !! r = Some l ∧ Py.startswith "## " (Py.strip l) = true) ∧
    (∀ i l, s < i < r → lines !! i = Some l →
            Py.startswith "## " (Py.strip l) = false) ∧
    s < e ∧ e ≤ r ∧
    (∀ i l, e ≤ i < r → lines !! i = Some l → Py.strip l = "") ∧
    (∃ l, lines !! (e - 1) = Some l ∧ Py.strip l ≠ "").
Proof.
  apply (section_end_boundary demo_replace_doc).
  exists "## Serena MCP Integration". split; [|reflexivity].
  vm_compute. set_solver.
Defined.

(** C4, as the specification states it, fails: a level-one heading after
    the section is a heading of a higher level, and the code does not stop
    at it. *)
Lemma level1_heading_counterexample :
  find_serena_section_bounds demo_level1_doc = Some (0, 4) ∧
  spec_end_boundary (Py.split demo_level1_doc) 0 = 2 ∧
  snd <$> find_serena_section_bounds demo_level1_doc
  ≠ Some (spec_end_boundary (Py.split demo_level1_doc) 0).
Proof. vm_compute. repeat split. intros [=]. Qed.

(** C6.  The insertion point: when no line starts with a final section,
    the number of lines; otherwise the first line [a], in document order,
    whose trimmed text starts with some final section, moved back over the
    blank lines just before it, down to the first line of the document or
    to below a line that is not blank.  The insert branch writes the
    template there. *)
Theorem insertion_point_earliest_final_section content template :
  let lines := Py.split content in
  let ip := find_insertion_point content in
  ((Forall (λ l, is_final_section l = false) lines ∧ ip = length lines) ∨
   (∃ a l,
      lines !! a = Some l ∧ is_final_section l = true ∧
      (∀ i l', i < a → lines !! i = Some l' → is_final_section l' = false) ∧
      ip ≤ a ∧
      (∀ i l', ip ≤ i < a → lines !! i = Some l' → Py.strip l' = "") ∧
      (ip = 0 ∨ ∃ l', lines !! (ip - 1) = Some l' ∧ Py.strip l' ≠ ""))) ∧
  insert_new content template =
    ((true, MSG_ADDED),
     Some (Py.join (take ip lines ++ [""; ""] ++ Py.split template ++ [""; ""]
                    ++ drop ip lines))).
Proof.
  intros lines ip. split; [|done].
  unfold ip. rewrite insertion_point_spec. fold lines.
  destruct (first_index is_final_section lines 0) as [a|] eqn:Ha.
  - right. apply first_index_Some in Ha as (k & l & -> & Hk & Hl & Hmin). simpl.
    exists k, l. split; [done|]. split; [done|]. split; [done|].
    split; [apply back_up_le|]. split.
    { intros i l' Hi Hl'. apply is_blank_strip.
      apply (back_up_blank lines 0 k i l'); [lia | lia | done]. }
    pose proof (lookup_lt_Some _ _ _ Hk).
    destruct (back_up_stop lines 0 k) as [?|(l' & Hl' & Hb')]; [lia|left; lia|].
    right. exists l'. split; [done|]. intros Hblank%is_blank_strip. congruence.
  - left. by apply first_index_None in Ha.
Qed.

End LocatorClaims.

(** ** The choice of the mode and the failure branch *)

Section Mode.

Implicit Types (lines : list string) (content template : string).

Lemma heading_has_keyword content :
  Py.contains HEADING content = true →
  Py.contains "serena" (Py.lower content) = true.
Proof.
  intros H%contains_spec. apply contains_spec.
  apply (substr_trans _ (Py.lower HEADING)).
  - apply contains_spec. reflexivity.
  - apply substr_lower. by exists HEADING.
Qed.

Lemma already_has_keyword content :
  already_has_serena_section content = Py.contains "serena" (Py.lower content).
Proof.
  unfold already_has_serena_section.
  destruct (Py.contains HEADING content) eqn:E; [|done].
  by rewrite (heading_has_keyword _ E).
Qed.

Lemma absent_iff content :
  spec_section_absent content ↔ already_has_serena_section content = false.
Proof.
  unfold spec_section_absent, already_has_serena_section.
  rewrite orb_false_iff, <- !not_true_iff_false, !contains_spec, substr_lower.
  done.
Qed.

(** C5.  The insert branch is taken exactly when the section is absent in
    the sense of the specification: the heading text occurs nowhere in the
    content and the keyword occurs nowhere in it, in any case; otherwise the
    replace branch is taken. *)
Theorem insert_mode_iff_absent content template :
  (spec_section_absent content ↔ already_has_serena_section content = false) ∧
  (spec_section_absent content ↔
   snd (fst (update_content content template)) = MSG_ADDED) ∧
  (spec_section_absent content →
   update_content content template = insert_new content template) ∧
  (¬ spec_section_absent content →
   update_content content template = replace_existing content template).
Proof.
  split; [apply absent_iff|]. rewrite absent_iff. unfold update_content.
  destruct (already_has_serena_section content); repeat split; try done.
  - intros Hmsg. unfold replace_existing in Hmsg.
    destruct (find_serena_section_bounds content) as [[? ?]|];
      vm_compute in Hmsg; discriminate.
Qed.

(** C9.  A document with a line whose trimmed text is the target heading
    has bounds [(s, e)] with [s < e], line [s] being the first such line,
    inside the replaced range; and the run fails exactly on the documents
    that hold the keyword in some case and have no such line. *)
Theorem bounds_found_for_heading_line content :
  ((∃ line, line ∈ Py.split content ∧ Py.strip line = HEADING) →
   ∃ s e line,
     find_serena_section_bounds content = Some (s, e) ∧
     back_up (Py.split content) 0 s ≤ s ∧ s < e ∧ e ≤ length (Py.split content) ∧
     Py.split content !! s = Some line ∧ Py.strip line = HEADING) ∧
  (∀ template,
     fst (update_content content template) = (false, MSG_NO_BOUNDS) ↔
     Py.contains "serena" (Py.lower content) = true ∧
     ¬ ∃ line, line ∈ Py.split content ∧ Py.strip line = HEADING).
Proof.
  split.
  - intros Hline. destruct (heading_line_found _ Hline) as (s & e & Hb).
    destruct (bounds_range _ _ _ Hb) as (Ha & Hse & He & Hr & l & Hl & Hh).
    exists s, e, l. repeat split; try done; [lia|]. by apply is_heading_strip.
  - intros template. unfold update_content. rewrite <- already_has_keyword.
    destruct (already_has_serena_section content).
    + unfold replace_existing.
      destruct (find_serena_section_bounds content) as [[s e]|] eqn:Hb; simpl.
      * split; [done|]. intros [_ Hno]. exfalso. apply Hno.
        destruct (bounds_range _ _ _ Hb) as (_ & _ & _ & _ & l & Hl & Hh).
        exists l. split; [by eapply list_elem_of_lookup_2|by apply is_heading_strip].
      * split; [|done]. intros _. split; [done|].
        intros (line & Hin & Hs). apply bounds_None in Hb.
        rewrite Forall_forall in Hb. specialize (Hb _ Hin).
        apply is_heading_strip in Hs. congruence.
    + simpl. split; [done | by intros [? _]].
Qed.

Lemma bounds_found_for_heading_line_witness :
  (∃ s e line,
     find_serena_section_bounds demo_replace_doc = Some (s, e) ∧
     back_up (Py.split demo_replace_doc) 0 s ≤ s ∧ s < e ∧
     e ≤ length (Py.split demo_replace_doc) ∧
     Py.split demo_replace_doc !! s = Some line ∧ Py.strip line = HEADING) ∧
  (Py.contains "serena" (Py.lower demo_prose_doc) = true ∧
   ¬ ∃ line, line ∈ Py.split demo_prose_doc ∧ Py.strip line = HEADING).
Proof.
  split.
  - apply (proj1 (bounds_found_for_heading_line demo_replace_doc)).
    exists "## Serena MCP Integration". split; [|reflexivity].
    vm_compute. set_solver.
  - apply (proj2 (bounds_found_for_heading_line demo_prose_doc) demo_template).
    reflexivity.
Defined.

End Mode.

(** ** Files and the loop of [main] *)

Section Files.

Implicit Types (fs : gmap string string) (content template : string).

Lemma update_agent_file_read fs file_path template content :
  fs !! file_path = Some content →
  update_agent_file fs file_path template =
  Some (fst (update_content content template),
        write_back fs file_path (transform content template)).
Proof.
  intros Hread. unfold update_agent_file, transform. rewrite Hread.
  by destruct (update_content content template) as [r [c|]].
Qed.

Lemma update_content_failure content template message :
  fst (update_content content template) = (false, message) →
  message = MSG_NO_BOUNDS ∧ transform content template = None.
Proof.
  unfold transform, update_content, replace_existing, insert_new.
  destruct (already_has_serena_section content); [|done].
  destruct (find_serena_section_bounds content) as [[? ?]|]; [done|].
  simpl. by intros [= <-].
Qed.

(** C7.  When [update_agent_file] reports a failure for a document, the
    failure is the missing section bounds and the file system is as it was
    before: nothing is written.  The iteration of the loop for that
    document returns: it prints the failure, adds one to the failed count
    and changes nothing else, so that a list holding only this document is
    run to its end, and with more documents the loop goes on with the
    remaining ones from that state. *)
Theorem failed_document_left_untouched
    fs file_path template message fs' :
  update_agent_file fs file_path template = Some ((false, message), fs') →
  message = MSG_NO_BOUNDS ∧
  fs' = fs ∧
  ∀ t out,
    main_step template (fs, t, out) file_path =
      Some (fs,
            Tally (updated_count t) (replaced_count t) (added_count t)
                  (S (failed_count t)),
            out ++ [PrintFail file_path MSG_NO_BOUNDS]) ∧
    main_loop template [file_path] (fs, t, out) =
      Some (fs,
            Tally (updated_count t) (replaced_count t) (added_count t)
                  (S (failed_count t)),
            out ++ [PrintFail file_path MSG_NO_BOUNDS]) ∧
    ∀ rest,
      main_loop template (file_path :: rest) (fs, t, out) =
      main_loop template rest
        (fs,
         Tally (updated_count t) (replaced_count t) (added_count t)
               (S (failed_count t)),
         out ++ [PrintFail file_path MSG_NO_BOUNDS]).
Proof.
  intros Hup.
  destruct (fs !! file_path) as [content|] eqn:Hread;
    [|unfold update_agent_file in Hup; by rewrite Hread in Hup].
  rewrite (update_agent_file_read _ _ _ _ Hread) in Hup.
  injection Hup as Hr Hfs.
  destruct (update_content_failure _ _ _ Hr) as [-> Hnone].
  rewrite Hnone in Hfs. simpl in Hfs. subst fs'.
  split; [done|]. split; [done|]. intros t out.
  assert (main_step template (fs, t, out) file_path =
          Some (fs,
                Tally (updated_count t) (replaced_count t) (added_count t)
                      (S (failed_count t)),
                out ++ [PrintFail file_path MSG_NO_BOUNDS])) as Hstep.
  { cbn [main_step].
    by rewrite (update_agent_file_read _ _ _ _ Hread), Hr, Hnone. }
  split; [done|]. split.
  - cbn [main_loop]. by rewrite Hstep.
  - intros rest. cbn [main_loop]. by rewrite Hstep.
Qed.

Lemma failed_document_left_untouched_witness :
  MSG_NO_BOUNDS = MSG_NO_BOUNDS ∧
  demo_fs = demo_fs ∧
  ∀ t out,
    main_step demo_template (demo_fs, t, out) "plugins/p/agents/a.md" =
      Some (demo_fs,
            Tally (updated_count t) (replaced_count t) (added_count t)
                  (S (failed_count t)),
            out ++ [PrintFail "plugins/p/agents/a.md" MSG_NO_BOUNDS]) ∧
    main_loop demo_template ["plugins/p/agents/a.md"] (demo_fs, t, out) =
      Some (demo_fs,
            Tally (updated_count t) (replaced_count t) (added_count t)
                  (S (failed_count t)),
            out ++ [PrintFail "plugins/p/agents/a.md" MSG_NO_BOUNDS]) ∧
    ∀ rest,
      main_loop demo_template ("plugins/p/agents/a.md" :: rest) (demo_fs, t, out) =
      main_loop demo_template rest
        (demo_fs,
         Tally (updated_count t) (replaced_count t) (added_count t)
               (S (failed_count t)),
         out ++ [PrintFail "plugins/p/agents/a.md" MSG_NO_BOUNDS]).
Proof.
  apply (failed_document_left_untouched demo_fs "plugins/p/agents/a.md"
           demo_template).
  vm_compute. reflexivity.
Defined.

(** After the failure of the first document the loop has gone on: the
    second document is replaced and the third one gets the section. *)
Example failure_then_two_updates :
  main_loop demo_template demo_files (demo_fs, zero_tally, []) =
  Some (<["plugins/p/agents/c.md" :=
            Py.join ["# Agent"; "text"; ""; ""; "";
                     "## Serena MCP Integration"; "new"; ""; ""]]>
          (<["plugins/p/agents/b.md" := demo_tight_written]> demo_fs),
        Tally 2 1 1 1,
        [ PrintFail "plugins/p/agents/a.md" MSG_NO_BOUNDS;
          PrintOk "plugins/p/agents/b.md" MSG_REPLACED;
          PrintOk "plugins/p/agents/c.md" MSG_ADDED ]).
Proof. vm_compute. reflexivity. Qed.

End Files.

(** ** More on the line tests *)

Section LineTests.

Implicit Types (line : string).

Lemma lstrip_space_prefix s :
  ∃ pre, all_space pre = true ∧ s = pre +:+ Py.lstrip s.
Proof.
  induction s as [|c s (pre & Hpre & IH)]; simpl.
  - by exists "".
  - destruct (Py.is_space c) eqn:Hc.
    + exists (String c pre). split; [simpl; by rewrite Hc|].
      by rewrite sapp_cons, <- IH.
    + by exists "".
Qed.

Lemma rstrip_space_suffix s :
  ∃ post, all_space post = true ∧ s = Py.rstrip s +:+ post.
Proof.
  induction s as [|c s (post & Hpost & IH)]; simpl.
  - by exists "".
  - destruct (Py.rstrip s) as [|d r] eqn:E.
    + rewrite sapp_nil_l in IH. subst post.
      destruct (Py.is_space c) eqn:Hc.
      * exists (String c s). split; [simpl; by rewrite Hc|done].
      * exists s. split; [done | reflexivity].
    + exists post. split; [done|]. by rewrite sapp_cons, <- IH.
Qed.

Lemma lstrip_app_space ws s :
  all_space ws = true → Py.lstrip (ws +:+ s) = Py.lstrip s.
Proof.
  induction ws as [|c ws IH]; [done|]. cbn [all_space].
  intros [Hc Hws]%andb_true_iff. rewrite sapp_cons. simpl. rewrite Hc. auto.
Qed.

Lemma rstrip_all_space ws : all_space ws = true → Py.rstrip ws = "".
Proof.
  induction ws as [|c ws IH]; [done|]. simpl.
  intros [Hc Hws]%andb_true_iff. by rewrite IH, Hc.
Qed.

Lemma rstrip_app_space s ws :
  all_space ws = true → Py.rstrip (s +:+ ws) = Py.rstrip s.
Proof.
  intros Hws. induction s as [|c s IH].
  - rewrite sapp_nil_l. by apply rstrip_all_space.
  - rewrite sapp_cons. simpl. by rewrite IH.
Qed.

(** X1.  A line passes the heading test exactly when it is the heading text
    with white space, and nothing else, before and after it: an indented
    heading counts, a heading followed by other text does not. *)
Theorem heading_line_shape line :
  is_heading line = true ↔
  ∃ ws1 ws2,
    all_space ws1 = true ∧ all_space ws2 = true ∧
    line = ws1 +:+ HEADING +:+ ws2.
Proof.
  rewrite is_heading_strip. unfold Py.strip. split.
  - intros H.
    destruct (lstrip_space_prefix line) as (ws1 & H1 & E1).
    destruct (rstrip_space_suffix (Py.lstrip line)) as (ws2 & H2 & E2).
    exists ws1, ws2. split; [done|]. split; [done|].
    by rewrite <- H, <- E2.
  - intros (ws1 & ws2 & H1 & H2 & ->).
    rewrite lstrip_app_space by done.
    assert (Py.lstrip (HEADING +:+ ws2) = HEADING +:+ ws2) as -> by reflexivity.
    by rewrite rstrip_app_space.
Qed.

(** X2.  The test that ends a section is the test that the trimmed text
    starts with [## ]: the exclusion of [### ] never decides.  Every line
    that starts a final section passes it, and so does every target
    heading line; a blank line does not. *)
Theorem section_boundary_test line :
  is_next_section line = Py.startswith "## " (Py.strip line) ∧
  (is_final_section line = true → is_next_section line = true) ∧
  (is_heading line = true → is_next_section line = true) ∧
  (is_blank line = true → is_next_section line = false).
Proof.
  split; [apply is_next_section_level2|].
  split; [apply final_section_is_next_section|].
  split; [|apply blank_not_next_section].
  unfold is_heading, is_next_section. by intros ->%String.eqb_eq.
Qed.

(** X3.  The detection of an existing section is the search for the
    keyword alone: it answers yes exactly when some substring of the
    content reads [serena] in some mix of upper and lower case, and the
    test for the exact heading text never changes the answer. *)
Theorem detection_is_keyword_search content :
  already_has_serena_section content = Py.contains "serena" (Py.lower content) ∧
  (already_has_serena_section content = true ↔
   ∃ w, Py.substr w content ∧ Py.lower w = "serena").
Proof.
  split; [apply already_has_keyword|].
  by rewrite already_has_keyword, contains_spec, substr_lower.
Qed.

End LineTests.

(** ** More on the locator and the two branches *)

Section Branches.

Implicit Types (lines : list string) (content template : string).

(** X4.  [find_serena_section_bounds] returns [(None, None)] exactly when
    no line of the document is the target heading once trimmed; otherwise
    the start is the first such line, and the end lies after it and within
    the document. *)
Theorem bounds_first_heading_line content :
  match find_serena_section_bounds content with
  | None => ∀ line, line ∈ Py.split content → Py.strip line ≠ HEADING
  | Some (s, e) =>
      (∃ line, Py.split content !! s = Some line ∧ Py.strip line = HEADING) ∧
      (∀ i line, i < s → Py.split content !! i = Some line →
                 Py.strip line ≠ HEADING) ∧
      s < e ∧ e ≤ length (Py.split content)
  end.
Proof.
  destruct (find_serena_section_bounds content) as [[s e]|] eqn:Hb.
  - destruct (bounds_range _ _ _ Hb) as (_ & Hse & He & Hr & l & Hl & Hh).
    apply bounds_Some in Hb as [Hs _].
    destruct (first_heading_facts _ _ Hs) as (_ & _ & Hno).
    split; [exists l; split; [done | by apply is_heading_strip]|].
    split; [|lia].
    intros i line Hi Hline Hstrip%is_heading_strip.
    rewrite Forall_forall in Hno.
    assert (is_heading line = false); [|congruence].
    apply Hno, list_elem_of_lookup. exists i. by rewrite lookup_take_lt.
  - apply bounds_None in Hb. rewrite Forall_forall in Hb.
    intros line Hin Hstrip%is_heading_strip. specialize (Hb _ Hin). congruence.
Qed.

(** X5.  What a replacement removes: blank lines above the heading, the
    heading line, and lines below it none of which starts a [## ] section.
    No other level-two heading of the document is ever removed. *)
Theorem replaced_range_contents content template out :
  update_content content template = ((true, MSG_REPLACED), Some out) →
  ∃ s e,
    find_serena_section_bounds content = Some (s, e) ∧
    let lines := Py.split content in
    let a := back_up lines 0 s in
    length (Py.split out) + (e - a) =
      length lines + length (Py.split template) + 4 ∧
    ∀ i l, a ≤ i < e → lines !! i = Some l →
      (i < s ∧ Py.strip l = "") ∨
      (i = s ∧ Py.strip l = HEADING) ∨
      (s < i ∧ Py.startswith "## " (Py.strip l) = false).
Proof.
  intros (s & e & Hb & ->)%replaced_inv. exists s, e. split; [done|].
  intros lines a.
  destruct (bounds_range _ _ _ Hb) as (Ha & Hse & He & Hr & l & Hl & Hh).
  fold lines in Ha, He, Hr, Hl. fold a in Ha.
  pose proof (lookup_lt_Some _ _ _ Hl) as Hlen.
  destruct (next_section_line_spec lines s Hlen) as (_ & Hmin & _).
  split.
  { rewrite split_join_splice. fold lines a. unfold splice.
    rewrite !length_app, length_take, length_drop. simpl. lia. }
  intros i l' Hi Hl'.
  destruct (decide (i < s)) as [Hlt|Hge].
  { left. split; [done|]. apply is_blank_strip.
    apply (back_up_blank lines 0 s i l'); [fold a; lia | done | done]. }
  destruct (decide (i = s)) as [->|Hne].
  { right. left. split; [done|]. apply is_heading_strip. congruence. }
  right. right. split; [lia|]. rewrite <- is_next_section_level2.
  apply (Hmin i); [lia | done].
Qed.

Lemma replaced_range_contents_witness :
  ∃ s e,
    find_serena_section_bounds demo_replace_doc = Some (s, e) ∧
    let lines := Py.split demo_replace_doc in
    let a := back_up lines 0 s in
    length (Py.split demo_replace_written) + (e - a) =
      length lines + length (Py.split demo_template) + 4 ∧
    ∀ i l, a ≤ i < e → lines !! i = Some l →
      (i < s ∧ Py.strip l = "") ∨
      (i = s ∧ Py.strip l = HEADING) ∨
      (s < i ∧ Py.startswith "## " (Py.strip l) = false).
Proof.
  apply (replaced_range_contents demo_replace_doc demo_template).
  vm_compute. reflexivity.
Defined.

(** X6.  When no [## ] line follows the heading, the section runs to the
    end of the document: every line from the end boundary on is blank. *)
Theorem last_section_suffix_blank content s e :
  find_serena_section_bounds content = Some (s, e) →
  (∀ i l, s < i → Py.split content !! i = Some l →
          Py.startswith "## " (Py.strip l) = false) →
  ∀ i l, e ≤ i → Py.split content !! i = Some l → Py.strip l = "".
Proof.
  intros Hb Hnone i l Hi Hl. set (lines := Py.split content) in *.
  destruct (bounds_range _ _ _ Hb) as (_ & Hse & He & Hr & l0 & Hl0 & _).
  fold lines in He, Hr, Hl0.
  pose proof (lookup_lt_Some _ _ _ Hl0) as Hlen.
  destruct (next_section_line_spec lines s Hlen) as ([Hsr _] & _ & Hsec).
  assert (next_section_line lines s = length lines) as Hr'.
  { destruct (lines !! next_section_line lines s) as [l'|] eqn:El.
    - rewrite (drop_S _ _ _ El) in Hsec. simpl in Hsec.
      rewrite is_next_section_level2, (Hnone _ _ Hsr El) in Hsec. done.
    - apply lookup_ge_None in El. lia. }
  apply bounds_Some in Hb as [_ ->]. fold lines in Hi.
  apply is_blank_strip.
  apply (back_up_blank lines s (next_section_line lines s) i l); [done| |done].
  rewrite Hr'. by eapply lookup_lt_Some.
Qed.

Lemma last_section_suffix_blank_witness : Py.strip " " = "".
Proof.
  apply (last_section_suffix_blank
           (Py.join ["## Serena MCP Integration"; "body"; ""; " "]) 0 2
           eq_refl) with (i := 3); [|lia|reflexivity].
  intros i l Hi Hl.
  destruct i as [|[|[|[|i]]]]; try lia; vm_compute in Hl; try discriminate;
    by injection Hl as <-.
Defined.

(** X7.  An insertion loses nothing: the result is longer by the template
    and four blank lines, and taking the inserted lines out of it gives the
    lines of the document back, in order. *)
Theorem insert_keeps_every_line content template :
  already_has_serena_section content = false →
  ∃ out,
    update_content content template = ((true, MSG_ADDED), Some out) ∧
    let lines := Py.split content in
    let ip := find_insertion_point content in
    let t := length (Py.split template) in
    ip ≤ length lines ∧
    length (Py.split out) = length lines + t + 4 ∧
    take ip (Py.split out) ++ drop (ip + 2 + t + 2) (Py.split out) = lines ∧
    take (2 + t + 2) (drop ip (Py.split out)) =
      [""; ""] ++ Py.split template ++ [""; ""].
Proof.
  intros Hhas. unfold update_content, insert_new. rewrite Hhas.
  eexists. split; [reflexivity|]. cbv zeta. rewrite split_join_splice.
  set (lines := Py.split content). set (ip := find_insertion_point content).
  set (t := length (Py.split template)).
  pose proof (insertion_point_le content) as Hip. fold lines ip in Hip.
  assert (length (take ip lines) = ip) as Hla by (rewrite length_take; lia).
  split; [done|]. unfold splice. split.
  { rewrite !length_app, Hla, length_drop. simpl. fold t. lia. }
  split.
  - rewrite take_app_length' by done.
    rewrite (app_assoc (take ip lines)), (app_assoc _ (Py.split template)).
    rewrite (app_assoc _ [""; ""] (drop ip lines)).
    rewrite drop_app_length' by (rewrite !length_app, Hla; simpl; unfold t; lia).
    apply take_drop.
  - rewrite drop_app_length' by done.
    rewrite (app_assoc [""; ""]), (app_assoc _ [""; ""] (drop ip lines)).
    rewrite take_app_length' by (rewrite !length_app; simpl; unfold t; lia).
    by rewrite <- app_assoc.
Qed.

Lemma insert_keeps_every_line_witness :
  ∃ out,
    update_content demo_insert_doc demo_template = ((true, MSG_ADDED), Some out) ∧
    let lines := Py.split demo_insert_doc in
    let ip := find_insertion_point demo_insert_doc in
    let t := length (Py.split demo_template) in
    ip ≤ length lines ∧
    length (Py.split out) = length lines + t + 4 ∧
    take ip (Py.split out) ++ drop (ip + 2 + t + 2) (Py.split out) = lines ∧
    take (2 + t + 2) (drop ip (Py.split out)) =
      [""; ""] ++ Py.split demo_template ++ [""; ""].
Proof.
  apply (insert_keeps_every_line demo_insert_doc demo_template). reflexivity.
Defined.

Lemma back_up_all_blank lines s :
  s ≤ length lines →
  Forall (λ l, is_blank l = true) (take s lines) →
  back_up lines 0 s = 0.
Proof.
  intros Hs Hblank.
  destruct (back_up_stop lines 0 s Hs) as [?|(l & Hl & Hb)]; [lia|].
  pose proof (back_up_le lines 0 s) as Hle.
  destruct (back_up lines 0 s) as [|a]; [done|].
  replace (S a - 1) with a in Hl by lia.
  rewrite Forall_forall in Hblank.
  assert (is_blank l = true); [|congruence].
  apply Hblank, list_elem_of_lookup. exists a. rewrite lookup_take_lt; [done|lia].
Qed.

(** X15.  When the heading is the first line of the document, or only blank
    lines stand above it, nothing of the document is kept above the
    section: the written document starts with the two blank lines and the
    template. *)
Theorem replace_at_top content template out s e :
  update_content content template = ((true, MSG_REPLACED), Some out) →
  find_serena_section_bounds content = Some (s, e) →
  (∀ i l, i < s → Py.split content !! i = Some l → Py.strip l = "") →
  Py.split out =
    [""; ""] ++ Py.split template ++ [""; ""] ++ drop e (Py.split content).
Proof.
  intros (s' & e' & Hb' & ->)%replaced_inv Hb Hblank.
  rewrite Hb in Hb'. injection Hb' as <- <-.
  rewrite split_join_splice. unfold splice.
  destruct (bounds_range _ _ _ Hb) as (_ & _ & _ & _ & l & Hl & _).
  rewrite back_up_all_blank; [done|by apply lookup_lt_Some in Hl; lia|].
  apply Forall_forall. intros l' [i Hi]%list_elem_of_lookup.
  apply lookup_take_Some in Hi as [Hi Hlt].
  apply is_blank_strip. by apply (Hblank i).
Qed.

Lemma replace_at_top_witness :
  Py.split (Py.join [""; ""; "## Serena MCP Integration"; "new"; ""; "";
                     "## See Also"]) =
    [""; ""] ++ Py.split demo_template ++ [""; ""]
    ++ drop 3 (Py.split (Py.join [" "; "## Serena MCP Integration"; "old";
                                  "## See Also"])).
Proof.
  apply (replace_at_top
           (Py.join [" "; "## Serena MCP Integration"; "old"; "## See Also"])
           demo_template _ 1 3); [reflexivity | reflexivity |].
  intros i l Hi Hl. destruct i as [|i]; [|lia].
  vm_compute in Hl. by injection Hl as <-.
Defined.

End Branches.

(** ** Templates and the next run *)

Section NextRun.

Implicit Types (lines : list string) (content template : string).

Lemma substr_empty s : Py.substr "" s.
Proof. by exists "", s. Qed.

Lemma join_app X Y :
  X ≠ [] → Y ≠ [] →
  Py.join (X ++ Y) = Py.join X +:+ String Py.newline (Py.join Y).
Proof.
  intros HX HY. induction X as [|x X IH]; [done|].
  destruct X as [|x' X].
  - change ([x] ++ Y) with (x :: Y). by rewrite join_cons.
  - change ((x :: x' :: X) ++ Y) with (x :: (x' :: X) ++ Y).
    rewrite join_cons by done. rewrite IH by done.
    rewrite (join_cons x (x' :: X)) by done.
    by rewrite sapp_assoc, sapp_cons.
Qed.

Lemma join_infix_substr X T Y : Py.substr (Py.join T) (Py.join (X ++ T ++ Y)).
Proof.
  destruct T as [|t T]; [apply substr_empty|].
  apply (substr_trans _ (Py.join ((t :: T) ++ Y))).
  - destruct Y as [|y Y]; [rewrite app_nil_r; apply substr_refl|].
    rewrite join_app by done. exists "". eexists. by rewrite sapp_nil_l.
  - destruct X as [|x X]; [apply substr_refl|].
    rewrite (join_app (x :: X)) by done.
    exists (Py.join (x :: X) +:+ String Py.newline ""), "".
    by rewrite sapp_nil_r, sapp_assoc, sapp_cons.
Qed.

(** The template is a substring of every document that is written. *)
Lemma template_in_written content template r out :
  update_content content template = (r, Some out) → Py.substr template out.
Proof.
  intros Hout.
  destruct (written_shape _ _ _ _ Hout) as (P & B & Sfx & -> & _).
  rewrite <- (join_split template) at 1.
  rewrite (app_assoc P). apply join_infix_substr.
Qed.

Lemma keyword_in_written content template r out :
  Py.contains "serena" (Py.lower template) = true →
  update_content content template = (r, Some out) →
  already_has_serena_section out = true.
Proof.
  intros Hkey Hout. rewrite already_has_keyword.
  apply contains_spec, substr_lower.
  apply contains_spec, substr_lower in Hkey as (w & Hw & Hlow).
  exists w. split; [|done].
  eapply substr_trans; [exact Hw|]. by eapply template_in_written.
Qed.

(** X8.  A template that holds the keyword in some case is never inserted
    twice: every document the script has written is detected on the next
    run, which takes the replace branch and does not report an addition. *)
Theorem keyword_template_not_inserted_twice content template once :
  Py.contains "serena" (Py.lower template) = true →
  transform content template = Some once →
  already_has_serena_section once = true ∧
  update_content once template = replace_existing once template ∧
  snd (fst (update_content once template)) ≠ MSG_ADDED.
Proof.
  intros Hkey [r Hout]%transform_Some.
  pose proof (keyword_in_written _ _ _ _ Hkey Hout) as Hhas.
  split; [done|]. unfold update_content. rewrite Hhas. split; [done|].
  unfold replace_existing.
  destruct (find_serena_section_bounds once) as [[? ?]|];
    intros Hmsg; vm_compute in Hmsg; discriminate.
Qed.

Lemma keyword_template_not_inserted_twice_witness :
  already_has_serena_section demo_replace_written = true ∧
  update_content demo_replace_written demo_template =
    replace_existing demo_replace_written demo_template ∧
  snd (fst (update_content demo_replace_written demo_template)) ≠ MSG_ADDED.
Proof.
  apply (keyword_template_not_inserted_twice demo_replace_doc demo_template);
    reflexivity.
Defined.

(** X9.  A template that holds the keyword but has no target heading line,
    inserted into a document without a target heading line, leaves a
    document on which the next run fails: the keyword is detected and the
    section bounds are not found. *)
Theorem keyword_template_without_heading content template :
  already_has_serena_section content = false →
  Py.contains "serena" (Py.lower template) = true →
  find_serena_section_bounds template = None →
  ∃ once,
    update_content content template = ((true, MSG_ADDED), Some once) ∧
    update_content once template = ((false, MSG_NO_BOUNDS), None).
Proof.
  intros Hhas Hkey HT.
  assert (∃ once, update_content content template = ((true, MSG_ADDED), Some once))
    as [once Hout]
    by (unfold update_content, insert_new; rewrite Hhas; eauto).
  exists once. split; [done|].
  pose proof (keyword_in_written _ _ _ _ Hkey Hout) as Hhas'.
  unfold update_content. rewrite Hhas'. unfold replace_existing.
  assert (find_serena_section_bounds once = None) as ->; [|done].
  apply bounds_None.
  revert Hout. unfold update_content, insert_new. rewrite Hhas. intros [= <-].
  rewrite split_join_splice. unfold splice.
  apply orb_false_iff in Hhas as [Hhead _].
  pose proof (no_heading_line _ Hhead) as Hno. apply bounds_None in HT.
  repeat (apply Forall_app; split); auto using Forall_take, Forall_drop.
  all: by repeat constructor.
Qed.

Lemma keyword_template_without_heading_witness :
  ∃ once,
    update_content demo_plain_doc demo_keyword_template =
      ((true, MSG_ADDED), Some once) ∧
    update_content once demo_keyword_template = ((false, MSG_NO_BOUNDS), None).
Proof.
  apply (keyword_template_without_heading demo_plain_doc demo_keyword_template);
    reflexivity.
Defined.

(** X10.  A run that writes always changes the document: the content
    written back is never the content that was read. *)
Theorem written_content_differs content template out :
  transform content template = Some out → out ≠ content.
Proof.
  intros Hout Heq. by apply (transform_changes content template out).
Qed.

Lemma written_content_differs_witness : demo_tight_written ≠ demo_tight_doc.
Proof.
  apply (written_content_differs demo_tight_doc demo_template). reflexivity.
Defined.

End NextRun.

(** ** More on files and the loop *)

Section Batch.

Implicit Types (fs : gmap string string) (content template : string)
  (t : tally) (out : list printed) (files : list string).

Lemma write_back_lookup_ne fs file_path new_content q :
  q ≠ file_path → write_back fs file_path new_content !! q = fs !! q.
Proof.
  intros Hne. destruct new_content as [c|]; simpl; [|done].
  by rewrite lookup_insert_ne.
Qed.

(** X11.  When [update_agent_file] returns, the file existed, the pair is
    the one computed from its content, and the file then holds the new
    content when one is written and its old content when the run fails,
    in which case the file system is unchanged.  Every other file is as it
    was, and no file is created or deleted. *)
Theorem update_agent_file_effect fs file_path template r fs' :
  update_agent_file fs file_path template = Some (r, fs') →
  ∃ content,
    fs !! file_path = Some content ∧
    r = fst (update_content content template) ∧
    fs' !! file_path = Some (default content (transform content template)) ∧
    (fst r = false → fs' = fs) ∧
    (∀ q, q ≠ file_path → fs' !! q = fs !! q) ∧
    dom fs' = dom fs.
Proof.
  destruct (fs !! file_path) as [content|] eqn:Hread;
    [|unfold update_agent_file; by rewrite Hread].
  rewrite (update_agent_file_read _ _ _ _ Hread). intros [= <- <-].
  exists content. split; [done|]. split; [done|]. split.
  { destruct (transform content template) as [c|]; simpl; [|done].
    by rewrite lookup_insert_eq. }
  split.
  { destruct (fst (update_content content template)) as [b msg] eqn:Hr.
    simpl. intros ->.
    destruct (update_content_failure _ _ _ Hr) as [_ ->]. done. }
  split; [intros q Hq; by apply write_back_lookup_ne|].
  destruct (transform content template) as [c|]; simpl; [|done].
  apply dom_insert_lookup_L. by eexists.
Qed.

Lemma update_agent_file_effect_witness :
  ∃ content,
    demo_fs !! "plugins/p/agents/b.md" = Some content ∧
    (true, MSG_REPLACED) = fst (update_content content demo_template) ∧
    <["plugins/p/agents/b.md" := demo_tight_written]> demo_fs
      !! "plugins/p/agents/b.md" =
      Some (default content (transform content demo_template)) ∧
    (fst (true, MSG_REPLACED) = false →
     <["plugins/p/agents/b.md" := demo_tight_written]> demo_fs = demo_fs) ∧
    (∀ q, q ≠ "plugins/p/agents/b.md" →
          <["plugins/p/agents/b.md" := demo_tight_written]> demo_fs !! q
          = demo_fs !! q) ∧
    dom (<["plugins/p/agents/b.md" := demo_tight_written]> demo_fs) = dom demo_fs.
Proof.
  apply (update_agent_file_effect demo_fs "plugins/p/agents/b.md" demo_template).
  vm_compute. reflexivity.
Defined.

Lemma update_content_results content template :
  let r := fst (update_content content template) in
  (r = (false, MSG_NO_BOUNDS) ∧ transform content template = None) ∨
  r = (true, MSG_REPLACED) ∨ r = (true, MSG_ADDED).
Proof.
  unfold transform, update_content, replace_existing, insert_new.
  destruct (already_has_serena_section content); [|auto].
  destruct (find_serena_section_bounds content) as [[? ?]|]; simpl; auto.
Qed.

Lemma count_success_replaced t :
  count_success t MSG_REPLACED =
  Tally (S (updated_count t)) (S (replaced_count t)) (added_count t) (failed_count t).
Proof. reflexivity. Qed.

Lemma count_success_added t :
  count_success t MSG_ADDED =
  Tally (S (updated_count t)) (replaced_count t) (S (added_count t)) (failed_count t).
Proof. reflexivity. Qed.

Lemma main_step_read template fs t out agent_file content :
  fs !! agent_file = Some content →
  ∃ t' line,
    main_step template (fs, t, out) agent_file =
      Some (write_back fs agent_file (transform content template), t', out ++ [line]) ∧
    printed_path line = agent_file ∧
    updated_count t' + failed_count t' = S (updated_count t + failed_count t) ∧
    replaced_count t' + added_count t' + updated_count t =
      replaced_count t + added_count t + updated_count t'.
Proof.
  intros Hread. cbn [main_step].
  rewrite (update_agent_file_read _ _ _ _ Hread).
  destruct (update_content_results content template) as [[-> _]|[-> | ->]];
    eexists _, _; (split; [reflexivity|]);
    rewrite ?count_success_replaced, ?count_success_added;
    cbn [printed_path count_failure updated_count replaced_count added_count
         failed_count];
    (split; [done|lia]).
Qed.

Lemma main_loop_counts template files fs t out fs' t' out' :
  main_loop template files (fs, t, out) = Some (fs', t', out') →
  updated_count t' + failed_count t' =
    updated_count t + failed_count t + length files ∧
  replaced_count t' + added_count t' + updated_count t =
    replaced_count t + added_count t + updated_count t' ∧
  printed_path <$> out' = (printed_path <$> out) ++ files.
Proof.
  revert fs t out. induction files as [|f files IH]; intros fs t out; cbn [main_loop].
  - intros [= -> -> ->]. rewrite app_nil_r. simpl. split; [lia|]. split; [lia|done].
  - destruct (fs !! f) as [content|] eqn:Hread.
    + destruct (main_step_read template fs t out f content Hread)
        as (t1 & line & -> & Hline & H1 & H2).
      intros (H3 & H4 & H5)%IH. rewrite H5, fmap_app, <- app_assoc. simpl.
      rewrite Hline. split; [lia|]. split; [lia|done].
    + cbn [main_step]. unfold update_agent_file. by rewrite Hread.
Qed.

(** X12.  The summary of a run that completes is consistent: the updated
    and the failed documents together are all the documents, the replaced
    and the added ones together are the updated ones, and one line is
    printed for each document, in the order of the list. *)
Theorem main_loop_summary template files fs fs' t' out' :
  main_loop template files (fs, zero_tally, []) = Some (fs', t', out') →
  updated_count t' + failed_count t' = length files ∧
  replaced_count t' + added_count t' = updated_count t' ∧
  printed_path <$> out' = files.
Proof.
  intros (H1 & H2 & H3)%main_loop_counts. simpl in *. split; [lia|].
  split; [lia|done].
Qed.

Lemma main_loop_summary_witness :
  updated_count (Tally 2 1 1 1) + failed_count (Tally 2 1 1 1) = length demo_files ∧
  replaced_count (Tally 2 1 1 1) + added_count (Tally 2 1 1 1) =
    updated_count (Tally 2 1 1 1) ∧
  printed_path <$>
    [ PrintFail "plugins/p/agents/a.md" MSG_NO_BOUNDS;
      PrintOk "plugins/p/agents/b.md" MSG_REPLACED;
      PrintOk "plugins/p/agents/c.md" MSG_ADDED ] = demo_files.
Proof.
  eapply (main_loop_summary demo_template demo_files demo_fs).
  vm_compute. reflexivity.
Defined.

(** X13.  A run that completes creates and deletes no file and leaves every
    file that is not in the list as it is. *)
Theorem main_loop_frame template files fs t out fs' t' out' :
  main_loop template files (fs, t, out) = Some (fs', t', out') →
  dom fs' = dom fs ∧
  ∀ q, q ∉ files → fs' !! q = fs !! q.
Proof.
  revert fs t out. induction files as [|f files IH]; intros fs t out; cbn [main_loop].
  - by intros [= -> -> ->].
  - destruct (fs !! f) as [content|] eqn:Hread.
    + destruct (main_step_read template fs t out f content Hread)
        as (t1 & line & -> & _).
      intros [Hdom Hframe]%IH. split.
      * rewrite Hdom. destruct (transform content template) as [c|]; simpl; [|done].
        apply dom_insert_lookup_L. by eexists.
      * intros q [Hne Hq]%not_elem_of_cons.
        rewrite (Hframe q Hq). by apply write_back_lookup_ne.
    + cbn [main_step]. unfold update_agent_file. by rewrite Hread.
Qed.

Lemma main_loop_frame_witness :
  dom (<["plugins/p/agents/b.md" := demo_tight_written]> demo_fs) = dom demo_fs ∧
  ∀ q, q ∉ ["plugins/p/agents/b.md"] →
    <["plugins/p/agents/b.md" := demo_tight_written]> demo_fs !! q = demo_fs !! q.
Proof.
  apply (main_loop_frame demo_template ["plugins/p/agents/b.md"] demo_fs
           zero_tally [] _ (Tally 1 1 0 0)
           [PrintOk "plugins/p/agents/b.md" MSG_REPLACED]).
  vm_compute. reflexivity.
Defined.

(** X14.  A missing file in the list ends the run: [open] raises, [main]
    does not catch it, and the loop does not reach its end. *)
Theorem missing_file_ends_run template files fs t out f :
  f ∈ files → fs !! f = None →
  main_loop template files (fs, t, out) = None.
Proof.
  revert fs t out. induction files as [|g files IH]; intros fs t out Hin Hf.
  - by apply elem_of_nil in Hin.
  - cbn [main_loop].
    destruct (fs !! g) as [content|] eqn:Hread.
    + destruct (main_step_read template fs t out g content Hread)
        as (t1 & line & -> & _).
      apply elem_of_cons in Hin as [->|Hin]; [congruence|].
      apply IH; [done|].
      rewrite write_back_lookup_ne; [done|]. intros ->. congruence.
    + cbn [main_step]. unfold update_agent_file. by rewrite Hread.
Qed.

Lemma missing_file_ends_run_witness :
  main_loop demo_template
    ["plugins/p/agents/b.md"; "plugins/p/agents/missing.md";
     "plugins/p/agents/c.md"] (demo_fs, zero_tally, []) = None.
Proof.
  apply (missing_file_ends_run _ _ _ _ _ "plugins/p/agents/missing.md").
  - vm_compute. set_solver.
  - reflexivity.
Defined.

End Batch.

(** ** Sanity checks on concrete inputs *)

Example split_example :
  Py.split (String "a" (String Py.newline (String Py.newline "b"))) = ["a"; ""; "b"].
Proof. reflexivity. Qed.

Example strip_example : Py.strip "  ## See Also  " = "## See Also".
Proof. reflexivity. Qed.

(** The insertion point is the blank line below the title, before the
    first final section. *)
Example insertion_point_example : find_insertion_point demo_insert_doc = 1.
Proof. reflexivity. Qed.

(** The earliest final section in the document decides, not the first one
    of the list. *)
Example insertion_point_document_order :
  find_insertion_point
    (Py.join ["# Title"; "text"; "## See Also"; "## Example Interactions"]) = 2.
Proof. reflexivity. Qed.

(** A document that only mentions the keyword is reported and not written. *)
Example prose_document_fails :
  update_content demo_prose_doc demo_template = ((false, MSG_NO_BOUNDS), None).
Proof. reflexivity. Qed.
